(** * Back-testing calculator: the period evaluator of [src/App.js]

    A shallow embedding of [fetchStockData] (App.js, lines 25-149): the
    normalisation of the upstream price arrays, the two baseline look-ups
    (nearest date, calendar-year average), the return arithmetic and the
    [try]/[catch] around them.

    Numbers are IEEE-754 binary64 values ([PrimFloat.float]), which is what
    a JavaScript Number is.  Timestamps are integers ([Z]); the upstream
    feed delivers whole seconds, far below 2^53, so integer arithmetic on
    them is exact in JavaScript as well. *)

From Stdlib Require Import ZArith List String Ascii Bool Lia.
From Stdlib Require Import Floats DecimalString.
Import ListNotations.

Local Open Scope string_scope.
Local Open Scope Z_scope.

(** ** JavaScript values and completions *)

(** The values an element read [a[i]] can produce here: [undefined] (index
    past the end), [null] (a gap in the feed) or a Number. *)
Inductive value : Type :=
  | undefined
  | null
  | number (x : float).

(** ToBoolean: a Number is truthy unless it is 0, -0 or NaN. *)
Definition truthy (v : value) : bool :=
  match v with
  | number x => negb (is_nan x || is_zero x)
  | _ => false
  end.

(** ToNumber on the values above. *)
Definition toNumber (v : value) : float :=
  match v with
  | undefined => nan
  | null => zero
  | number x => x
  end.

(** [a[i]]: an index past the end reads [undefined]. *)
Definition get (a : list value) (i : nat) : value := nth i a undefined.

(** What a [throw] carries: [new Error(msg)] or the engine's TypeError. *)
Inductive exn : Type :=
  | Error (message : string)
  | TypeError (message : string).

Definition message_of (e : exn) : string :=
  match e with Error m => m | TypeError m => m end.

(** A computation either completes normally or throws. *)
Inductive completion (A : Type) : Type :=
  | Normal (a : A)
  | Throw (e : exn).
Arguments Normal {A} a.
Arguments Throw {A} e.

Definition bind {A B} (c : completion A) (k : A -> completion B) : completion B :=
  match c with
  | Normal a => k a
  | Throw e => Throw e
  end.

Notation "x <- c ;; k" := (bind c (fun x => k))
  (at level 61, c at next level, right associativity).

(** [xs.map(f)] for a callback that may throw: the first throw ends it. *)
Fixpoint mapM {A B} (f : A -> completion B) (xs : list A) : completion (list B) :=
  match xs with
  | [] => Normal []
  | x :: xs' => y <- f x ;; ys <- mapM f xs' ;; Normal (y :: ys)
  end.

(** ** Number.prototype.toFixed *)

Module NumberFormat.

Definition nat_string (n : Z) : string :=
  NilZero.string_of_uint (N.to_uint (Z.to_N n)).

Fixpoint zeros (k : nat) : string :=
  match k with O => "" | S k' => String "0" (zeros k') end.

Fixpoint take (k : nat) (s : string) : string :=
  match k, s with
  | S k', String c s' => String c (take k' s')
  | _, _ => ""
  end.

Fixpoint drop (k : nat) (s : string) : string :=
  match k, s with
  | S k', String _ s' => drop k' s'
  | _, _ => s
  end.

(** The digits of [n] with a point before the last [f] of them, padded
    with zeros on the left so that one digit at least precedes the point. *)
Definition fixed_digits (f : nat) (n : Z) : string :=
  let m := nat_string n in
  match f with
  | O => m
  | _ =>
      let k := String.length m in
      let m' := if Nat.leb k f then zeros (f + 1 - k) ++ m else m in
      let k' := String.length m' in
      take (k' - f) m' ++ "." ++ drop (k' - f) m'
  end.

(** The integer [n] for which [n / 10^f - m * 2^e] is closest to zero, the
    larger one when two are equally close. *)
Definition round_scaled (f : nat) (m e : Z) : Z :=
  let s := m * 10 ^ Z.of_nat f in
  if 0 <=? e then s * 2 ^ e
  else (2 * s + 2 ^ (- e)) / 2 ^ (1 - e).

Fixpoint strip_zeros_rev (s : list ascii) : list ascii :=
  match s with
  | "0"%char :: s' => strip_zeros_rev s'
  | _ => s
  end.

Definition strip_trailing_zeros (s : string) : string :=
  string_of_list_ascii (rev (strip_zeros_rev (rev (list_ascii_of_string s)))).

(** Does the decimal [c] read back as the double [m * 2^e] (round to
    nearest, ties to even)?  Only used for [e >= 2]. *)
Definition reads_back (m e c : Z) : bool :=
  let x := m * 2 ^ e in
  let up := 2 ^ (e - 1) in
  let down := if m =? 2 ^ 52 then 2 ^ (e - 2) else 2 ^ (e - 1) in
  if Z.even m then (x - down <=? c) && (c <=? x + up)
  else (x - down <? c) && (c <? x + up).

(** The shortest decimal that reads back as [m * 2^e]: for [k] digits,
    the two multiples of [10^(nd-k)] around the value are tried, with
    the closer one preferred.  Seventeen digits always read back, so the
    walk ends within its fuel. *)
Fixpoint shortest (fuel : nat) (k : Z) (nd m e : Z) : Z :=
  let x := m * 2 ^ e in
  match fuel with
  | O => x
  | S fuel' =>
      let p := 10 ^ (nd - k) in
      let lo := x / p * p in
      let hi := lo + p in
      let oklo := reads_back m e lo in
      let okhi := reads_back m e hi in
      if oklo && okhi then
        if x - lo <? hi - x then lo
        else if hi - x <? x - lo then hi
        else if Z.even (lo / p) then lo else hi
      else if oklo then lo
      else if okhi then hi
      else shortest fuel' (k + 1) nd m e
  end.

(** Number::toString for a finite value [m * 2^e >= 10^21]: exponent
    notation over the shortest digits. *)
Definition exponent_string (m e : Z) : string :=
  let x := m * 2 ^ e in
  let nd := Z.of_nat (String.length (nat_string x)) in
  let c := nat_string (shortest 17 1 nd m e) in
  let ds := strip_trailing_zeros c in
  let ex := nat_string (Z.of_nat (String.length c) - 1) in
  match ds with
  | String d "" => String d ("e+" ++ ex)
  | String d rest => String d ("." ++ rest ++ "e+" ++ ex)
  | "" => ""
  end.

(** [x.toFixed(f)], for [0 <= f <= 100]. *)
Definition toFixed (f : nat) (x : float) : string :=
  match Prim2SF x with
  | S754_nan => "NaN"
  | S754_infinity false => "Infinity"
  | S754_infinity true => "-Infinity"
  | S754_zero _ => fixed_digits f 0
  | S754_finite s m e =>
      let sign := if s then "-" else "" in
      if (0 <=? e) && (10 ^ 21 <=? Z.pos m * 2 ^ e)
      then sign ++ exponent_string (Z.pos m) e
      else sign ++ fixed_digits f (round_scaled f (Z.pos m) e)
  end.

End NumberFormat.

Import NumberFormat.

(** [v.toFixed(f)] where [v] may be absent: the property read then throws
    (the message is the one V8 gives). *)
Definition toFixed_of (v : value) (f : nat) : completion string :=
  match v with
  | number x => Normal (toFixed f x)
  | undefined =>
      Throw (TypeError "Cannot read properties of undefined (reading 'toFixed')")
  | null =>
      Throw (TypeError "Cannot read properties of null (reading 'toFixed')")
  end.

(** ** Dates

    [Date] in the local time zone, for a zone at a fixed offset [tz]
    (seconds east of UTC), as in the application's ko-KR locale.  Days are
    counted from 1970-01-01 in the proleptic Gregorian calendar. *)

Module JSDate.

(** Day number of the civil date [y]-[m]-[d], [m] in 1..12. *)
Definition days_from_civil (y m d : Z) : Z :=
  let y' := if m <=? 2 then y - 1 else y in
  let era := y' / 400 in
  let yoe := y' - era * 400 in
  let mp := if 2 <? m then m - 3 else m + 9 in
  let doy := (153 * mp + 2) / 5 + d - 1 in
  let doe := yoe * 365 + yoe / 4 - yoe / 100 + doy in
  era * 146097 + doe - 719468.

(** Civil date (year, month 1..12, day) of a day number. *)
Definition civil_from_days (z : Z) : Z * Z * Z :=
  let z' := z + 719468 in
  let era := z' / 146097 in
  let doe := z' - era * 146097 in
  let yoe := (doe - doe / 1460 + doe / 36524 - doe / 146096) / 365 in
  let doy := doe - (365 * yoe + yoe / 4 - yoe / 100) in
  let mp := (5 * doy + 2) / 153 in
  let d := doy - (153 * mp + 2) / 5 + 1 in
  let m := if mp <? 10 then mp + 3 else mp - 9 in
  let y := yoe + era * 400 in
  (if m <=? 2 then y + 1 else y, m, d).

(** [new Date(year, monthIndex, day).getTime() / 1000]: local midnight
    of that day, in seconds since the epoch.  Years 0..99 mean 1900..1999. *)
Definition local_midnight (tz year monthIndex day : Z) : Z :=
  let y := if (0 <=? year) && (year <=? 99) then 1900 + year else year in
  days_from_civil y (monthIndex + 1) day * 86400 - tz.

(** [new Date(ms).getFullYear()]. *)
Definition getFullYear (tz ms : Z) : Z :=
  let '(y, _, _) := civil_from_days ((ms / 1000 + tz) / 86400) in y.

(** The ko-KR date text, as in "2024. 1. 5.", of an instant in a zone at
    the fixed offset [tz]: what [toLocaleDateString('ko-KR')] prints in a
    zone without daylight saving time, such as Asia/Seoul. *)
Definition fixed_offset_date (tz ms : Z) : string :=
  let '(y, m, d) := civil_from_days ((ms / 1000 + tz) / 86400) in
  (nat_string y ++ ". " ++ nat_string m ++ ". " ++ nat_string d ++ ".")%string.

End JSDate.

(** The browser the run is in.  [now_ms] and [tz] are its clock and its
    zone; the clock is read once: a run is short against the calendar year
    [getFullYear] looks at.  The two builtins the run calls whose result
    rests on the engine's Unicode and time-zone tables are taken from the
    browser as they are: [toUpperCase s] is [s.toUpperCase()], and
    [toLocaleDateString ms] is [new Date(ms).toLocaleDateString('ko-KR')]. *)
Record clock : Type := {
  now_ms : Z;
  tz : Z;
  toUpperCase : string -> string;
  toLocaleDateString : Z -> string
}.

(** ** The period table (App.js, lines 5-15) *)

(** An entry has either [days] or [years]; the other field is [undefined],
    here [None]. *)
Record period_entry : Type := {
  label : string;
  days : option Z;
  years : option Z;
  useYearAvg : bool
}.

Definition PERIODS : list period_entry := [
  {| label := "1주일 전"; days := Some 7; years := None; useYearAvg := false |};
  {| label := "1개월 전"; days := Some 30; years := None; useYearAvg := false |};
  {| label := "3개월 전"; days := Some 90; years := None; useYearAvg := false |};
  {| label := "6개월 전"; days := Some 180; years := None; useYearAvg := false |};
  {| label := "1년 전"; days := Some 365; years := None; useYearAvg := false |};
  {| label := "2년 전"; days := None; years := Some 2; useYearAvg := true |};
  {| label := "3년 전"; days := None; years := Some 3; useYearAvg := true |};
  {| label := "5년 전"; days := None; years := Some 5; useYearAvg := true |};
  {| label := "10년 전"; days := None; years := Some 10; useYearAvg := true |}
].

(** ** The period evaluator (App.js, lines 72-135) *)

(** One element of [periodResults]. *)
Record period_result : Type := {
  period : string;
  pastPrice : string;
  shares : string;
  currentValue : string;
  profit : string;
  profitRate : string;
  isProfit : bool;
  isYearAvg : bool
}.

(** [diff < minDiff], where [minDiff] starts as [Infinity] ([None]). *)
Definition below (diff : Z) (minDiff : option Z) : bool :=
  match minDiff with
  | None => true
  | Some m => diff <? m
  end.

(** [rs.filter(r => r !== null)]. *)
Fixpoint non_null {A} (rs : list (option A)) : list A :=
  match rs with
  | [] => []
  | Some r :: rs' => r :: non_null rs'
  | None :: rs' => non_null rs'
  end.

Section Evaluator.

Variable clk : clock.
(** [result.timestamp], [prices] (line 56), [rawPrices] (line 54),
    [currentPrice] (line 57) and [investmentAmount] (line 58). *)
Variable timestamps : list Z.
Variables prices rawPrices : list value.
Variable currentPrice : value.
Variable investmentAmount : float.

(** [endDate] (line 36). *)
Definition endDate : Z := now_ms clk / 1000.

(** The body of the loop of lines 79-85 at index [i], on the state
    [(adjSum, rawSum, count)]. *)
Definition year_step (yearStart yearEnd : Z) (st : float * float * float) (i : nat)
  : float * float * float :=
  let '(adjSum, rawSum, count) := st in
  if (yearStart <=? nth i timestamps 0) && (nth i timestamps 0 <=? yearEnd)
     && truthy (get prices i) && truthy (get rawPrices i)
  then ((adjSum + toNumber (get prices i))%float,
        (rawSum + toNumber (get rawPrices i))%float,
        (count + 1)%float)
  else st.

(** [targetYear], [yearStart] and [yearEnd] (lines 74-76). *)
Definition targetYear (yearsAgo : Z) : Z :=
  JSDate.getFullYear (tz clk) (now_ms clk) - yearsAgo.
Definition yearStart (yearsAgo : Z) : Z :=
  JSDate.local_midnight (tz clk) (targetYear yearsAgo) 0 1.
Definition yearEnd (yearsAgo : Z) : Z :=
  JSDate.local_midnight (tz clk) (targetYear yearsAgo) 11 31.

(** [getYearAveragePrice] (lines 73-88); [None] is its [null].  An
    [undefined] argument makes every bound NaN, so that no point is
    counted. *)
Definition getYearAveragePrice (yearsAgo : option Z) : option (float * float) :=
  match yearsAgo with
  | None => None
  | Some n =>
      let '(adjSum, rawSum, count) :=
        fold_left (year_step (yearStart n) (yearEnd n))
                  (seq 0 (List.length timestamps)) (zero, zero, zero) in
      if (count =? 0)%float then None
      else Some ((adjSum / count)%float, (rawSum / count)%float)
  end.

(** The body of the loop of lines 106-112 at index [i], on the state
    [(closestIndex, minDiff)]. *)
Definition nearest_step (targetTimestamp : Z) (st : nat * option Z) (i : nat)
  : nat * option Z :=
  let diff := Z.abs (nth i timestamps 0 - targetTimestamp) in
  if below diff (snd st) && truthy (get prices i) then (i, Some diff) else st.

(** The scan of lines 103-112, cut after the first [n] indices. *)
Definition scan (targetTimestamp : Z) (n : nat) : nat * option Z :=
  fold_left (nearest_step targetTimestamp) (seq 0 n) (0%nat, None).

(** [closestIndex] after lines 102-112.  With [period.days] undefined the
    target is NaN, no comparison succeeds and the index stays 0. *)
Definition closestIndex (d : option Z) : nat :=
  match d with
  | None => 0%nat
  | Some n =>
      let targetTimestamp := endDate - n * 24 * 60 * 60 in
      fst (scan targetTimestamp (List.length timestamps))
  end.

(** [(pastAdjPrice, pastRawPrice)] after lines 92-115; [None] when the
    callback has returned [null] at line 97. *)
Definition baseline (p : period_entry) : option (value * value) :=
  if useYearAvg p then
    match getYearAveragePrice (years p) with
    | None => None
    | Some (adjAvg, rawAvg) => Some (number adjAvg, number rawAvg)
    end
  else
    let i := closestIndex (days p) in
    Some (get prices i, get rawPrices i).

(** Lines 117-134 for a baseline: [null] for a falsy adjusted price,
    otherwise the result object, whose first computed field
    [pastRawPrice.toFixed(2)] throws on an absent raw price. *)
Definition result_of (p : period_entry) (pastAdjPrice pastRawPrice : value)
  : completion (option period_result) :=
  if negb (truthy pastAdjPrice) then Normal None
  else
    let shares := (investmentAmount / toNumber pastAdjPrice)%float in
    let currentValue := (shares * toNumber currentPrice)%float in
    let profit := (currentValue - investmentAmount)%float in
    let profitRate :=
      ((currentValue - investmentAmount) / investmentAmount * 100)%float in
    shown <- toFixed_of pastRawPrice 2 ;;
    Normal (Some (Build_period_result
                    (label p)
                    shown
                    (toFixed 4 shares)
                    (toFixed 2 currentValue)
                    (toFixed 2 profit)
                    (toFixed 2 profitRate)
                    (0 <=? profit)%float
                    (useYearAvg p))).

(** The callback of [PERIODS.map] (lines 91-135). *)
Definition periodResult (p : period_entry) : completion (option period_result) :=
  match baseline p with
  | None => Normal None
  | Some (pastAdjPrice, pastRawPrice) => result_of p pastAdjPrice pastRawPrice
  end.

(** [periods.map(...).filter(r => r !== null)] for a table [periods]. *)
Definition evaluate (periods : list period_entry) : completion (list period_result) :=
  rs <- mapM periodResult periods ;; Normal (non_null rs).

(** [periodResults] (line 91). *)
Definition periodResults : completion (list period_result) := evaluate PERIODS.

End Evaluator.

(** ** The run as a whole (App.js, lines 25-149) *)

(** What the evaluator reads of [data.chart.result[0]]: [timestamp],
    [indicators.adjclose?.[0]?.adjclose] and [indicators.quote[0].close];
    [None] is a missing array ([undefined]). *)
Record chart_result : Type := {
  timestamp : option (list Z);
  adjclose : option (list value);
  close : option (list value)
}.

(** What lines 40-54 deliver: something thrown on the way (a rejected
    fetch or parse, or a result without the [indicators] or [quote] objects
    that lines 53-54 read through), a response that is not [ok], or
    [result], [None] when it is falsy. *)
Inductive response : Type :=
  | Failed (e : exn)
  | NotOk
  | Body (result : option chart_result).

Record chart_point : Type := { date : string; price : string }.

Record results : Type := {
  symbol : string;
  currentPrice : string;
  investment : float;
  periods : list period_result
}.

(** The component state the function writes. *)
Record state : Type := {
  st_results : option results;
  st_loading : bool;
  st_error : string;
  st_chartData : list chart_point
}.

(** Upper case of a string of ASCII characters: what [toUpperCase] gives
    on the ticker symbols of the sample runs. *)
Definition ascii_upper (s : string) : string :=
  string_of_list_ascii
    (map (fun c => let n := nat_of_ascii c in
                   if (Nat.leb 97 n && Nat.leb n 122)%bool
                   then ascii_of_nat (n - 32) else c)
         (list_ascii_of_string s)).

(** The chart sample of lines 61-69: every [max(1, floor(length / 100))]-th
    index with a truthy price. *)
Definition chartPoints (clk : clock) (timestamps : list Z) (prices : list value)
  : list chart_point :=
  let stride := Nat.max 1 (List.length timestamps / 100) in
  flat_map
    (fun i =>
       if (Nat.eqb (i mod stride) 0 && truthy (get prices i))%bool
       then [ {| date := toLocaleDateString clk (nth i timestamps 0 * 1000);
                 price := toFixed 2 (toNumber (get prices i)) |} ]
       else [])
    (seq 0 (List.length timestamps)).

(** Lines 51-58: [prices], [rawPrices] and [currentPrice] out of the
    result.  Reading [rawPrices.length] throws when the raw array is
    [undefined].  [rawPrices[rawPrices.length - 1]] is [undefined] for an
    empty array, as is index 0 here. *)
Definition normalize (r : chart_result)
  : completion (list value * list value * value) :=
  match close r with
  | None =>
      Throw (TypeError "Cannot read properties of undefined (reading 'length')")
  | Some rawPrices =>
      let prices := match adjclose r with Some a => a | None => rawPrices end in
      Normal (prices, rawPrices, get rawPrices (List.length rawPrices - 1))
  end.

(** Lines 90-142 once the arrays are there: the period results, then the
    object handed to [setResults]. *)
Definition summary (clk : clock) (sym : string) (investmentAmount : float)
  (timestamps : list Z) (prices rawPrices : list value) (cur : value)
  : completion results :=
  ps <- periodResults clk timestamps prices rawPrices cur investmentAmount ;;
  shown <- toFixed_of cur 2 ;;
  Normal {| symbol := toUpperCase clk sym;
            currentPrice := shown;
            investment := investmentAmount;
            periods := ps |}.

(** The [catch] clause (line 145) with [finally] (line 147); [chart] is the
    value [chartData] has by then. *)
Definition caught (chart : list chart_point) (e : exn) : state :=
  {| st_results := None;
     st_loading := false;
     st_error := if String.eqb (message_of e) ""
                 then "데이터를 가져오는 중 오류가 발생했습니다."
                 else message_of e;
     st_chartData := chart |}.

(** [fetchStockData], from the state [st] it is called in to the state it
    leaves.  [investmentAmount] is [parseFloat(investment)].  A missing
    [timestamp] array is read without harm at line 51 and makes
    [timestamps.length] throw at line 62, before the chart is stored. *)
Definition fetchStockData (st : state) (clk : clock) (sym investment : string)
  (investmentAmount : float) (resp : response) : state :=
  if (String.eqb sym "" || String.eqb investment "")%bool then
    {| st_results := st_results st;
       st_loading := st_loading st;
       st_error := "종목 코드와 투자 금액을 입력해주세요.";
       st_chartData := st_chartData st |}
  else
    match resp with
    | Failed e => caught (st_chartData st) e
    | NotOk => caught (st_chartData st) (Error "주식 데이터를 가져올 수 없습니다.")
    | Body None => caught (st_chartData st) (Error "유효하지 않은 종목 코드입니다.")
    | Body (Some r) =>
        match normalize r with
        | Throw e => caught (st_chartData st) e
        | Normal (prices, rawPrices, cur) =>
            match timestamp r with
            | None =>
                caught (st_chartData st)
                  (TypeError
                     "Cannot read properties of undefined (reading 'length')")
            | Some timestamps =>
                let chart := chartPoints clk timestamps prices in
                match summary clk sym investmentAmount timestamps prices
                              rawPrices cur with
                | Throw e => caught chart e
                | Normal res =>
                    {| st_results := Some res;
                       st_loading := false;
                       st_error := "";
                       st_chartData := chart |}
                end
            end
        end
    end.

(** * The vocabulary of the properties *)

(** An absent value: [undefined] or [null]. *)
Definition absent (v : value) : bool :=
  match v with
  | number _ => false
  | _ => true
  end.

(** What one entry contributes to the filtered list of a table walk. *)
Definition kept {A B : Type} (f : A -> completion (option B)) (a : A) : list B :=
  match f a with
  | Normal (Some b) => [b]
  | _ => []
  end.

(** Distance of point [i] from the target, and whether the scan may
    select it. *)
Definition distance (timestamps : list Z) (targetTimestamp : Z) (i : nat) : Z :=
  Z.abs (nth i timestamps 0 - targetTimestamp).
Definition selectable (prices : list value) (i : nat) : bool :=
  truthy (get prices i).

(** The invariant of the scan after [n] indices. *)
Definition scan_inv (timestamps : list Z) (prices : list value)
  (targetTimestamp : Z) (n : nat) (st : nat * option Z) : Prop :=
  match snd st with
  | None =>
      fst st = 0%nat /\ forall i, (i < n)%nat -> selectable prices i = false
  | Some m =>
      m = distance timestamps targetTimestamp (fst st) /\
      (fst st < n)%nat /\ selectable prices (fst st) = true /\
      forall i, (i < n)%nat -> selectable prices i = true ->
                distance timestamps targetTimestamp (fst st)
                <= distance timestamps targetTimestamp i /\
                (distance timestamps targetTimestamp i
                 = distance timestamps targetTimestamp (fst st) ->
                 (fst st <= i)%nat)
  end.

(** Timestamps in ascending order. *)
Definition ascending (timestamps : list Z) : Prop :=
  forall a b, (a <= b < List.length timestamps)%nat ->
              nth a timestamps 0 <= nth b timestamps 0.

(** The timestamp [t] lies in the window the code averages over for the
    year [yearsAgo] years back. *)
Definition in_year_window (clk : clock) (yearsAgo t : Z) : Prop :=
  yearStart clk yearsAgo <= t <= yearEnd clk yearsAgo.

(** A run on a usable form: both fields filled in. *)
Definition submitted (sym investment : string) : Prop :=
  sym <> ""%string /\ investment <> ""%string.

(** What the markup shows of a state (App.js, lines 193-207): the error
    banner for a non-empty [error], the results section for non-null
    [results], and inside it the chart for non-empty [chartData]; the button
    is disabled while [loading]. *)
Definition error_shown (st : state) : bool :=
  negb (String.eqb (st_error st) "").
Definition results_shown (st : state) : bool :=
  match st_results st with
  | Some _ => true
  | None => false
  end.
Definition chart_shown (st : state) : bool :=
  results_shown st && negb (Nat.eqb (List.length (st_chartData st)) 0).

(** The entry [p] is a days entry whose selected point has a truthy
    adjusted price and no raw price. *)
Definition selected_gap (clk : clock) (timestamps : list Z)
  (prices rawPrices : list value) (p : period_entry) : bool :=
  negb (useYearAvg p)
  && truthy (get prices (closestIndex clk timestamps prices (days p)))
  && absent (get rawPrices (closestIndex clk timestamps prices (days p))).

(** Point [i] is counted by the test of line 80 for the year [yearsAgo]
    years back. *)
Definition qualifies (clk : clock) (timestamps : list Z)
  (prices rawPrices : list value) (yearsAgo : Z) (i : nat) : bool :=
  (yearStart clk yearsAgo <=? nth i timestamps 0)
  && (nth i timestamps 0 <=? yearEnd clk yearsAgo)
  && truthy (get prices i) && truthy (get rawPrices i).

(** [prices] of line 56 for a result whose raw array is [rawPrices]. *)
Definition prices_of (r : chart_result) (rawPrices : list value) : list value :=
  match adjclose r with
  | Some a => a
  | None => rawPrices
  end.

(** Concrete runs used below.  The clock stands at 2026-05-28 in Seoul
    ([endDate] = 1780000000), so that "2 years ago" is the year 2024; the
    zone is at UTC+9 all year and the symbols typed are ASCII. *)
Module Sample.

Definition seoul : clock :=
  {| now_ms := 1780000000000;
     tz := 32400;
     toUpperCase := ascii_upper;
     toLocaleDateString := JSDate.fixed_offset_date 32400 |}.

Definition entry (i : nat) : period_entry :=
  nth i PERIODS (Build_period_entry "" None None false).

(** The 7-day and the 2-year entries of the table. *)
Definition week : period_entry := entry 0.
Definition two_years : period_entry := entry 5.

(** Two points, exactly 7 days ago and now. *)
Definition week_ts : list Z := [1779395200; 1780000000].

(** Three points in 2024 and one now. *)
Definition year_ts : list Z := [1710000000; 1720000000; 1730000000; 1780000000].
Definition year_adj : list value := [number 10; number 20; number 30; number 50].
Definition year_raw : list value := [number 11; number 21; number 31; number 50].

Definition idle : state :=
  {| st_results := None; st_loading := false; st_error := ""; st_chartData := [] |}.

End Sample.

(** * Properties *)

(** ** Completions and the table walk *)

Lemma truthy_number (v : value) :
  truthy v = true -> exists x, v = number x.
Proof. destruct v; simpl; try discriminate; eauto. Qed.


Lemma toFixed_of_number (x : float) (f : nat) :
  toFixed_of (number x) f = Normal (toFixed f x).
Proof. reflexivity. Qed.

Lemma toFixed_of_throws (v : value) (f : nat) :
  (exists e, toFixed_of v f = Throw e) <-> absent v = true.
Proof.
  destruct v; simpl; split; intro H; try discriminate; eauto.
  destruct H as [e H]; discriminate.
Qed.

Lemma caught_error (chart : list chart_point) (e : exn) :
  st_error (caught chart e) <> ""%string.
Proof.
  unfold caught; simpl.
  destruct (String.eqb (message_of e) "") eqn:E.
  - discriminate.
  - apply String.eqb_neq; exact E.
Qed.

Lemma caught_state (chart : list chart_point) (e : exn) :
  st_results (caught chart e) = None /\
  st_error (caught chart e) <> ""%string /\
  st_loading (caught chart e) = false.
Proof. split; [reflexivity|]. split; [apply caught_error | reflexivity]. Qed.

Section TableWalk.

Context {A B : Type} (f : A -> completion (option B)).

Lemma mapM_normal (xs : list A) (os : list (option B)) :
  mapM f xs = Normal os ->
  non_null os = flat_map (kept f) xs /\ List.length os = List.length xs.
Proof.
  revert os; induction xs as [|x xs IH]; intros os H; simpl in H.
  - injection H as <-; split; reflexivity.
  - destruct (f x) as [o|e] eqn:Ex; simpl in H; [|discriminate].
    destruct (mapM f xs) as [os'|e] eqn:Exs; simpl in H; [|discriminate].
    injection H as <-.
    destruct (IH os' eq_refl) as [IH1 IH2].
    simpl. unfold kept at 1; rewrite Ex.
    destruct o; simpl; rewrite IH1, IH2; split; reflexivity.
Qed.

Lemma mapM_throws (xs : list A) :
  (exists e, mapM f xs = Throw e) <-> (exists x e, In x xs /\ f x = Throw e).
Proof.
  induction xs as [|x xs IH]; simpl.
  - split; [intros [e H]; discriminate | intros (x & e & [] & _)].
  - destruct (f x) as [o|e] eqn:Ex; simpl.
    + destruct (mapM f xs) as [os|e'] eqn:Exs; simpl.
      * split; [intros [e H]; discriminate|].
        intros (x' & e & [<-|Hin] & Hx); [congruence|].
        destruct IH as [_ IH]. destruct IH as [e' He']; [eauto|discriminate].
      * split; [|eauto].
        intros _. destruct IH as [IH _].
        destruct IH as (x' & e & Hin & Hx); eauto 6.
    + split; eauto 6.
Qed.

Lemma flat_map_kept_length (xs : list A) :
  (List.length (flat_map (kept f) xs) <= List.length xs)%nat.
Proof.
  induction xs as [|x xs IH]; simpl; [lia|].
  rewrite length_app. unfold kept at 1.
  destruct (f x) as [[b|]|e]; simpl; lia.
Qed.

Lemma in_flat_map_kept (xs : list A) (b : B) :
  In b (flat_map (kept f) xs) <-> exists x, In x xs /\ f x = Normal (Some b).
Proof.
  rewrite in_flat_map. unfold kept.
  split; intros (x & Hin & H); exists x; split; auto.
  - destruct (f x) as [[b'|]|e]; simpl in H; try contradiction.
    destruct H as [<-|[]]; reflexivity.
  - rewrite H; simpl; auto.
Qed.

End TableWalk.

(** ** The nearest-date scan *)

Section NearestScan.

Variable timestamps : list Z.
Variable prices : list value.
Variable targetTimestamp : Z.

Local Abbreviation dist := (distance timestamps targetTimestamp).
Local Abbreviation pick := (selectable prices).
Local Abbreviation scanned := (scan timestamps prices targetTimestamp).

Lemma scan_S (n : nat) :
  scanned (S n) = nearest_step timestamps prices targetTimestamp (scanned n) n.
Proof. unfold scan. rewrite seq_S, fold_left_app. reflexivity. Qed.

(** One more index keeps the least-distance, lowest-index property. *)
Lemma least_extends (n c c' : nat) :
  (forall i, (i < n)%nat -> pick i = true ->
             dist c <= dist i /\ (dist i = dist c -> (c <= i)%nat)) ->
  (pick n = true -> dist c' <= dist n /\ (dist n = dist c' -> (c' <= n)%nat)) ->
  (forall i, (i < n)%nat -> pick i = true -> dist c <= dist i ->
             (dist i = dist c -> (c <= i)%nat) ->
             dist c' <= dist i /\ (dist i = dist c' -> (c' <= i)%nat)) ->
  forall i, (i < S n)%nat -> pick i = true ->
            dist c' <= dist i /\ (dist i = dist c' -> (c' <= i)%nat).
Proof.
  intros Hold Hnew Hmono i Hi Hq.
  assert (i = n \/ i < n)%nat as [->|Hlt] by lia.
  - apply Hnew, Hq.
  - destruct (Hold i Hlt Hq) as [H1 H2]. apply Hmono; assumption.
Qed.

Lemma scan_invariant (n : nat) :
  scan_inv timestamps prices targetTimestamp n (scanned n).
Proof.
  induction n as [|n IH].
  - simpl. split; [reflexivity | intros i Hi; lia].
  - rewrite scan_S.
    destruct (scanned n) as [c m].
    unfold nearest_step, scan_inv in *; cbn [fst snd] in *.
    fold (dist n). fold (pick n).
    destruct m as [m|]; cbn [below].
    + destruct IH as (Hm & Hc & Hq & Hmin). subst m.
      destruct (dist n <? dist c) eqn:Hlt; cbn [andb].
      * apply Z.ltb_lt in Hlt.
        destruct (pick n) eqn:Hn; cbn [fst snd].
        -- split; [reflexivity|]. split; [lia|]. split; [exact Hn|].
           apply (least_extends n c n Hmin); [intros _; lia|].
           intros i Hi _ H1 H2. lia.
        -- split; [reflexivity|]. split; [lia|]. split; [exact Hq|].
           apply (least_extends n c c Hmin); [congruence|].
           intros i Hi _ H1 H2. auto.
      * apply Z.ltb_ge in Hlt. cbn [fst snd].
        split; [reflexivity|]. split; [lia|]. split; [exact Hq|].
        apply (least_extends n c c Hmin); [intros _; lia|].
        intros i Hi _ H1 H2. auto.
    + destruct IH as (Hc & Hnone). cbn [andb].
      destruct (pick n) eqn:Hn; cbn [fst snd].
      * split; [reflexivity|]. split; [lia|]. split; [exact Hn|].
        intros i Hi Hq.
        assert (i = n \/ i < n)%nat as [->|Hlt] by lia; [lia|].
        rewrite (Hnone i Hlt) in Hq. discriminate.
      * split; [exact Hc|]. intros i Hi.
        assert (i = n \/ i < n)%nat as [->|Hlt] by lia; auto.
Qed.

(** With a selectable point the scan ends on one, at least distance,
    lowest index among those. *)
Lemma scan_some (n i : nat) :
  (i < n)%nat -> pick i = true ->
  let c := fst (scanned n) in
  (c < n)%nat /\ pick c = true /\
  forall j, (j < n)%nat -> pick j = true ->
            dist c <= dist j /\ (dist j = dist c -> (c <= j)%nat).
Proof.
  intros Hi Hq c. subst c.
  pose proof (scan_invariant n) as H.
  destruct (scanned n) as [c m].
  unfold scan_inv in H; cbn [fst snd] in *.
  destruct m as [m|].
  - destruct H as (_ & Hc & Hqc & Hmin). auto.
  - destruct H as (_ & Hnone). rewrite (Hnone i Hi) in Hq. discriminate.
Qed.

(** Without one the index stays 0. *)
Lemma scan_none (n : nat) :
  (forall i, (i < n)%nat -> pick i = false) ->
  fst (scanned n) = 0%nat.
Proof.
  intros Hnone.
  pose proof (scan_invariant n) as H.
  destruct (scanned n) as [c m].
  unfold scan_inv in H; cbn [fst snd] in *.
  destruct m as [m|].
  - destruct H as (_ & Hc & Hqc & _). rewrite (Hnone c Hc) in Hqc. discriminate.
  - tauto.
Qed.

End NearestScan.

(** ** Zero and truthiness on binary64 values *)

Lemma Prim2SF_zero : Prim2SF zero = S754_zero false.
Proof. reflexivity. Qed.

Lemma is_zero_SF (x : float) :
  is_zero x = true <-> exists s, Prim2SF x = S754_zero s.
Proof.
  unfold is_zero. rewrite eqb_spec, Prim2SF_zero.
  destruct (Prim2SF x) as [s| s | |s m e]; simpl; split; intro H; eauto;
    solve [ discriminate | destruct s; discriminate | destruct H; discriminate ].
Qed.

Lemma is_nan_SF (x : float) :
  is_nan x = true <-> Prim2SF x = S754_nan.
Proof.
  unfold is_nan. rewrite eqb_spec.
  destruct (Prim2SF x) as [s| s | |s m e]; unfold SFeqb; simpl; split; intro H;
    try discriminate; try reflexivity.
  - destruct s; discriminate.
  - destruct s; simpl in H; rewrite ?Z.compare_refl, ?Pos.compare_refl in H;
      simpl in H; try discriminate.
    all: rewrite Pos.compare_cont_refl in H; discriminate.
Qed.

(** A truthy Number is an infinity or a non-zero finite value. *)
Lemma truthy_SF (x : float) :
  truthy (number x) = true ->
  (exists s, Prim2SF x = S754_infinity s) \/
  (exists s m e, Prim2SF x = S754_finite s m e).
Proof.
  simpl. rewrite negb_true_iff, orb_false_iff. intros [Hn Hz].
  destruct (Prim2SF x) as [s| s | |s m e] eqn:E; eauto 6.
  - assert (is_zero x = true) by (apply is_zero_SF; eauto). congruence.
  - assert (is_nan x = true) by (apply is_nan_SF; auto). congruence.
Qed.

(** Zero divided by a truthy Number is a zero. *)
Lemma zero_div_truthy (a x : float) :
  is_zero a = true -> truthy (number x) = true ->
  exists s, Prim2SF (a / x) = S754_zero s.
Proof.
  intros Ha Hx. apply is_zero_SF in Ha as [sa Ha].
  rewrite div_spec, Ha. unfold SF64div, SFdiv.
  destruct (truthy_SF x Hx) as [[s ->]|(s & m & e & ->)]; eauto.
Qed.

Lemma toFixed_zero (f : nat) (z : float) :
  (exists s, Prim2SF z = S754_zero s) -> toFixed f z = fixed_digits f 0.
Proof. intros [s H]. unfold toFixed. rewrite H. reflexivity. Qed.

(** ** The period callback *)

Section PeriodFacts.

Variable clk : clock.
Variable timestamps : list Z.
Variables prices rawPrices : list value.
Variable cur : value.
Variable inv : float.

Local Abbreviation baseline' := (baseline clk timestamps prices rawPrices).
Local Abbreviation closestIndex' := (closestIndex clk timestamps prices).
Local Abbreviation result_of' := (result_of cur inv).
Local Abbreviation periodResult' :=
  (periodResult clk timestamps prices rawPrices cur inv).
Local Abbreviation evaluate' := (evaluate clk timestamps prices rawPrices cur inv).

Lemma baseline_days (p : period_entry) :
  useYearAvg p = false ->
  baseline' p = Some (get prices (closestIndex' (days p)),
                     get rawPrices (closestIndex' (days p))).
Proof. intro H. unfold baseline. rewrite H. reflexivity. Qed.

Lemma baseline_years (p : period_entry) (a r : value) :
  useYearAvg p = true -> baseline' p = Some (a, r) ->
  exists x y, a = number x /\ r = number y.
Proof.
  intros H. unfold baseline. rewrite H.
  destruct (getYearAveragePrice _ _ _ _ _) as [[x y]|]; [|discriminate].
  intros [= <- <-]. eauto.
Qed.

Lemma result_of_falsy (p : period_entry) (a r : value) :
  truthy a = false -> result_of' p a r = Normal None.
Proof. intro H. unfold result_of. rewrite H. reflexivity. Qed.

Lemma result_of_number (p : period_entry) (a : value) (y : float) :
  truthy a = true ->
  result_of' p a (number y) =
  Normal (Some (Build_period_result
                  (label p)
                  (toFixed 2 y)
                  (toFixed 4 (inv / toNumber a))
                  (toFixed 2 (inv / toNumber a * toNumber cur))
                  (toFixed 2 (inv / toNumber a * toNumber cur - inv))
                  (toFixed 2 ((inv / toNumber a * toNumber cur - inv) / inv * 100))
                  (0 <=? inv / toNumber a * toNumber cur - inv)%float
                  (useYearAvg p))).
Proof. intro H. unfold result_of. rewrite H. reflexivity. Qed.

Lemma result_of_throws (p : period_entry) (a r : value) :
  (exists e, result_of' p a r = Throw e) <-> truthy a = true /\ absent r = true.
Proof.
  unfold result_of.
  destruct (truthy a); simpl.
  - destruct r; simpl; split; intro H; eauto;
      try (destruct H as [_ H]; discriminate);
      destruct H as [e H]; discriminate.
  - split; [intros [e H]; discriminate | intros [H _]; discriminate].
Qed.

(** The callback throws exactly on a days entry whose selected point has
    a truthy adjusted price and no raw price. *)
Lemma periodResult_throws (p : period_entry) :
  (exists e, periodResult' p = Throw e) <->
  useYearAvg p = false /\
  truthy (get prices (closestIndex' (days p))) = true /\
  absent (get rawPrices (closestIndex' (days p))) = true.
Proof.
  unfold periodResult.
  destruct (useYearAvg p) eqn:Hy.
  - split; [|intros [H _]; discriminate].
    intros [e H].
    destruct (baseline' p) as [[a r]|] eqn:Hb; [|discriminate].
    destruct (baseline_years p a r Hy Hb) as (x & y & -> & ->).
    assert (Ht : exists e, result_of' p (number x) (number y) = Throw e) by eauto.
    apply result_of_throws in Ht as [_ Ht]. discriminate.
  - rewrite (baseline_days p Hy), result_of_throws. tauto.
Qed.

Lemma evaluate_normal (ps : list period_entry) (rs : list period_result) :
  evaluate' ps = Normal rs ->
  rs = flat_map (kept periodResult') ps.
Proof.
  unfold evaluate.
  destruct (mapM periodResult' ps) as [os|e] eqn:E; simpl; [|discriminate].
  intros [= <-]. apply (mapM_normal _ _ _ E).
Qed.

Lemma evaluate_throws (ps : list period_entry) :
  (exists e, evaluate' ps = Throw e) <->
  (exists p e, In p ps /\ periodResult' p = Throw e).
Proof.
  rewrite <- mapM_throws. unfold evaluate.
  destruct (mapM periodResult' ps) as [os|e]; simpl; split; intros [e' H];
    try discriminate; eauto.
Qed.

Lemma evaluate_completes (ps : list period_entry) :
  (forall p, In p ps -> forall e, periodResult' p <> Throw e) ->
  exists rs, evaluate' ps = Normal rs.
Proof.
  intro H. destruct (evaluate' ps) as [rs|e] eqn:E; eauto.
  assert (Ht : exists e, evaluate' ps = Throw e) by eauto.
  apply evaluate_throws in Ht as (p & e' & Hin & Hp).
  destruct (H p Hin e' Hp).
Qed.

End PeriodFacts.


(** ** The yearly average *)

(** With one array for both price tracks the two sums stay equal. *)
Lemma year_fold_same (timestamps : list Z) (raw : list value) (ys ye : Z)
  (l : list nat) (a c : float) :
  exists a' c',
    fold_left (year_step timestamps raw raw ys ye) l (a, a, c) = (a', a', c').
Proof.
  revert a c; induction l as [|i l IH]; intros a c; simpl.
  - eauto.
  - destruct ((ys <=? nth i timestamps 0) && (nth i timestamps 0 <=? ye)
              && truthy (get raw i) && truthy (get raw i)); apply IH.
Qed.

Lemma getYearAveragePrice_same (clk : clock) (timestamps : list Z)
  (raw : list value) (yearsAgo : option Z) (x y : float) :
  getYearAveragePrice clk timestamps raw raw yearsAgo = Some (x, y) -> x = y.
Proof.
  unfold getYearAveragePrice. destruct yearsAgo as [n|]; [|discriminate].
  destruct (year_fold_same timestamps raw (yearStart clk n) (yearEnd clk n)
              (seq 0 (List.length timestamps)) zero zero) as (a & c & ->).
  destruct (c =? 0)%float; [discriminate|]. intros [= <- <-]. reflexivity.
Qed.

Lemma baseline_same (clk : clock) (timestamps : list Z) (raw : list value)
  (p : period_entry) (a r : value) :
  baseline clk timestamps raw raw p = Some (a, r) -> a = r.
Proof.
  unfold baseline. destruct (useYearAvg p).
  - destruct (getYearAveragePrice clk timestamps raw raw (years p))
      as [[x y]|] eqn:E; [|discriminate].
    apply getYearAveragePrice_same in E as ->. intros [= <- <-]. reflexivity.
  - intros [= <- <-]. reflexivity.
Qed.


(** * The claims *)

Import Sample.

#[local] Set Warnings "-inexact-float".

(** ** C8: the period table *)

(** C8. The period table has exactly 9 entries, in this order: 7, 30, 90,
    180 and 365 days looked up by nearest date ([useYearAvg] false), then 2,
    3, 5 and 10 years averaged over the calendar year ([useYearAvg] true). *)
Theorem PERIODS_is_the_fixed_table :
  List.length PERIODS = 9%nat /\
  map (fun p => (days p, years p, useYearAvg p)) PERIODS =
  [ (Some 7, None, false); (Some 30, None, false); (Some 90, None, false);
    (Some 180, None, false); (Some 365, None, false);
    (None, Some 2, true); (None, Some 3, true); (None, Some 5, true);
    (None, Some 10, true) ].
Proof. split; reflexivity. Qed.

(** ** C1: the return arithmetic *)

(** C1, as stated, fails on the emitted object: with 1000 invested at an
    adjusted baseline of 3 and a current price of 300 the emitted share
    count is the text 333.3333, which is not 1000 / 3, and the emitted
    current value 100000.00 is not 333.3333 * 300. *)
Lemma emitted_fields_are_rounded :
  periodResult seoul week_ts [number 3; number 300] [number 3; number 300]
               (number 300) 1000 week
  = Normal (Some {| period := label week;
                    pastPrice := "3.00";
                    shares := "333.3333";
                    currentValue := "100000.00";
                    profit := "99000.00";
                    profitRate := "9900.00";
                    isProfit := true;
                    isYearAvg := false |})
  /\ (1000 / 3 =? 333.3333)%float = false
  /\ (333.3333 * 300 =? 100000)%float = false.
Proof. repeat split; vm_compute; reflexivity. Qed.

(** C1, amended. For a period whose baseline resolves to the numbers
    [(adj, raw)] with [adj] truthy, the callback computes
    shares = investment / adj, currentValue = shares * currentPrice,
    profit = currentValue - investment and
    profitRate = profit / investment * 100 in double arithmetic and emits
    their [toFixed] renderings (4 digits for the shares, 2 for the others),
    with [isProfit] = (profit >= 0) taken on the unrounded profit. *)
Theorem returns_are_emitted_rendered
  (clk : clock) (timestamps : list Z) (prices rawPrices : list value)
  (cur : value) (investmentAmount : float)
  (p : period_entry) (adj raw : float) :
  baseline clk timestamps prices rawPrices p = Some (number adj, number raw) ->
  truthy (number adj) = true ->
  let impliedShares := (investmentAmount / adj)%float in
  let value_now := (impliedShares * toNumber cur)%float in
  let gain := (value_now - investmentAmount)%float in
  let rate := (gain / investmentAmount * 100)%float in
  periodResult clk timestamps prices rawPrices cur investmentAmount p
  = Normal (Some {| period := label p;
                    pastPrice := toFixed 2 raw;
                    shares := toFixed 4 impliedShares;
                    currentValue := toFixed 2 value_now;
                    profit := toFixed 2 gain;
                    profitRate := toFixed 2 rate;
                    isProfit := (0 <=? gain)%float;
                    isYearAvg := useYearAvg p |}).
Proof.
  intros Hb Ht. unfold periodResult. rewrite Hb.
  rewrite result_of_number by exact Ht. reflexivity.
Qed.

Lemma returns_are_emitted_rendered_witness :
  periodResult seoul week_ts [number 3; number 300] [number 3; number 300]
               (number 300) 1000 week
  = Normal (Some {| period := label week;
                    pastPrice := toFixed 2 3;
                    shares := toFixed 4 (1000 / 3);
                    currentValue := toFixed 2 (1000 / 3 * 300);
                    profit := toFixed 2 (1000 / 3 * 300 - 1000);
                    profitRate := toFixed 2 ((1000 / 3 * 300 - 1000) / 1000 * 100);
                    isProfit := (0 <=? 1000 / 3 * 300 - 1000)%float;
                    isYearAvg := false |}).
Proof.
  apply (returns_are_emitted_rendered seoul week_ts [number 3; number 300]
           [number 3; number 300] (number 300) 1000 week 3 3);
    vm_compute; reflexivity.
Defined.

(** ** C2: which price is shown *)

Lemma in_year_window_test (clk : clock) (n t : Z) :
  in_year_window clk n t ->
  (yearStart clk n <=? t) && (t <=? yearEnd clk n) = true.
Proof.
  intros [H1 H2]. apply andb_true_intro; split; apply Z.leb_le; assumption.
Qed.

(** Scenario B of the specification, at the level of the average. *)
Lemma year_average_of_three (clk : clock) (n t1 t2 t3 : Z) :
  in_year_window clk n t1 -> in_year_window clk n t2 -> in_year_window clk n t3 ->
  getYearAveragePrice clk [t1; t2; t3]
    [number 10; number 20; number 30] [number 11; number 21; number 31] (Some n)
  = Some (20%float, 21%float).
Proof.
  intros H1 H2 H3.
  apply in_year_window_test in H1, H2, H3.
  unfold getYearAveragePrice. cbn [List.length seq fold_left].
  unfold year_step at 3. cbn [nth]. rewrite H1. cbn [get nth truthy andb].
  replace (negb (is_nan 10 || is_zero 10)) with true by reflexivity.
  replace (negb (is_nan 11 || is_zero 11)) with true by reflexivity.
  cbn [andb toNumber].
  unfold year_step at 2. cbn [nth]. rewrite H2. cbn [get nth truthy andb].
  replace (negb (is_nan 20 || is_zero 20)) with true by reflexivity.
  replace (negb (is_nan 21 || is_zero 21)) with true by reflexivity.
  cbn [andb toNumber].
  unfold year_step at 1. cbn [nth]. rewrite H3. cbn [get nth truthy andb].
  replace (negb (is_nan 30 || is_zero 30)) with true by reflexivity.
  replace (negb (is_nan 31 || is_zero 31)) with true by reflexivity.
  cbn [andb toNumber].
  reflexivity.
Qed.

(** C2, as stated, fails twice.  The price shown is a two-digit
    rendering, not the raw baseline itself: a raw baseline of 21.456 is
    shown as 21.46.  And a point of the averaged calendar year is not
    always counted: with the three points of the scenario on 2024-03-10,
    2024-07-03 and 2024-12-31 at noon, all within 2024, the third is left
    out, the price shown is 16.00 and the shares are 66.6667, where the
    claim has 21 and investment / 20 = 50. *)
Lemma shown_baseline_is_not_the_stated_one :
  (exists r,
      periodResult seoul week_ts [number 20.5; number 30]
                   [number 21.456; number 30] (number 30) 1000 week
      = Normal (Some r) /\
      pastPrice r = "21.46"%string /\ (21.456 =? 21.46)%float = false) /\
  (yearStart seoul 2 <= 1710000000 /\
   1735614000 <= yearEnd seoul 2 + 86399) /\
  (exists r,
      periodResult seoul [1710000000; 1720000000; 1735614000]
                   [number 10; number 20; number 30]
                   [number 11; number 21; number 31] (number 50) 1000 two_years
      = Normal (Some r) /\
      pastPrice r = "16.00"%string /\ shares r = "66.6667"%string /\
      toFixed 4 (1000 / 20) = "50.0000"%string).
Proof.
  split; [|split].
  - eexists. split; [vm_compute; reflexivity|].
    split; vm_compute; reflexivity.
  - split; vm_compute; discriminate.
  - eexists. split; [vm_compute; reflexivity|].
    repeat split; vm_compute; reflexivity.
Qed.

(** C2, amended. An emitted result shows in [pastPrice] the raw baseline
    rendered with two digits, and the adjusted baseline enters through the
    share count alone: two adjusted baselines that give the same share
    count give the same result.  In particular, when the series is three
    points that the code counts for the year averaged (timestamps from
    January 1 00:00 to December 31 00:00, local time) with adjusted prices
    10, 20, 30 and raw prices 11, 21, 31, the price shown is 21.00 and the
    shares are investment / 20 rendered with four digits. *)
Theorem raw_baseline_is_displayed :
  (forall (clk : clock) (timestamps : list Z) (prices rawPrices : list value)
          (cur : value) (investmentAmount : float)
          (p : period_entry) (adj raw : float) (r : period_result),
      baseline clk timestamps prices rawPrices p = Some (number adj, number raw) ->
      periodResult clk timestamps prices rawPrices cur investmentAmount p
      = Normal (Some r) ->
      pastPrice r = toFixed 2 raw /\
      shares r = toFixed 4 (investmentAmount / adj)) /\
  (forall (cur : value) (investmentAmount : float) (p : period_entry)
          (adj adj' raw : float),
      truthy (number adj) = true -> truthy (number adj') = true ->
      (investmentAmount / adj)%float = (investmentAmount / adj')%float ->
      result_of cur investmentAmount p (number adj) (number raw)
      = result_of cur investmentAmount p (number adj') (number raw)) /\
  (forall (clk : clock) (n t1 t2 t3 : Z) (cur : value) (investmentAmount : float)
          (name : string),
      in_year_window clk n t1 -> in_year_window clk n t2 ->
      in_year_window clk n t3 ->
      exists r,
        periodResult clk [t1; t2; t3]
          [number 10; number 20; number 30] [number 11; number 21; number 31]
          cur investmentAmount
          {| label := name; days := None; years := Some n; useYearAvg := true |}
        = Normal (Some r) /\
        pastPrice r = "21.00"%string /\
        shares r = toFixed 4 (investmentAmount / 20)).
Proof.
  split; [|split].
  - intros clk timestamps prices rawPrices cur inv p adj raw r Hb Hr.
    unfold periodResult in Hr. rewrite Hb in Hr.
    destruct (truthy (number adj)) eqn:Ht.
    + rewrite result_of_number in Hr by exact Ht.
      injection Hr as <-. split; reflexivity.
    + rewrite result_of_falsy in Hr by exact Ht. discriminate.
  - intros cur inv p adj adj' raw Ht Ht' Hq.
    rewrite !result_of_number by assumption.
    cbn [toNumber]. rewrite Hq. reflexivity.
  - intros clk n t1 t2 t3 cur inv name H1 H2 H3.
    unfold periodResult, baseline. cbn [useYearAvg years].
    rewrite (year_average_of_three clk n t1 t2 t3 H1 H2 H3).
    rewrite result_of_number by reflexivity.
    eexists. split; [reflexivity|]. split; reflexivity.
Qed.

Lemma raw_baseline_is_displayed_witness :
  (exists r,
      periodResult seoul year_ts year_adj year_raw (number 50) 1000 two_years
      = Normal (Some r) /\
      pastPrice r = toFixed 2 21 /\ shares r = toFixed 4 (1000 / 20)) /\
  (exists r,
      periodResult seoul [1710000000; 1720000000; 1730000000]
        [number 10; number 20; number 30] [number 11; number 21; number 31]
        (number 50) 1000 two_years
      = Normal (Some r) /\
      pastPrice r = "21.00"%string /\ shares r = toFixed 4 (1000 / 20)).
Proof.
  split.
  - eexists. split; [vm_compute; reflexivity|].
    apply (proj1 raw_baseline_is_displayed seoul year_ts year_adj year_raw
             (number 50) 1000%float two_years 20%float 21%float);
      vm_compute; reflexivity.
  - apply (proj2 (proj2 raw_baseline_is_displayed) seoul 2 1710000000 1720000000
             1730000000 (number 50) 1000%float (label two_years));
      vm_compute; split; discriminate.
Defined.

(** ** C3: the window of the yearly average *)

(** C3, at a failing input: the clock stands in 2026, the series has one
    point on 2024-07-03 (adjusted 10, raw 11) and one on 2024-12-31 at noon
    local time (adjusted 30, raw 31).  [yearEnd] is the midnight that starts
    December 31, so the second point, although before 23:59:59 of that
    day, is left out: the average is (10, 11) where the claim's window
    gives (20, 21); alone in its year it leaves the period without a
    baseline. *)
Theorem december_31_is_left_out :
  yearEnd seoul 2 = JSDate.local_midnight 32400 2024 11 31 /\
  yearEnd seoul 2 < 1735614000 <= yearEnd seoul 2 + 86399 /\
  getYearAveragePrice seoul [1720000000; 1735614000]
    [number 10; number 30] [number 11; number 31] (Some 2)
  = Some (10%float, 11%float) /\
  getYearAveragePrice seoul [1735614000] [number 30] [number 31] (Some 2) = None.
Proof.
  split; [reflexivity|].
  split; [split; vm_compute; [reflexivity | discriminate]|].
  split; vm_compute; reflexivity.
Qed.

(** ** C4: the nearest-date match *)

(** C4, as stated, fails for a point whose adjusted price is present but
    zero: exactly 7 days ago the series has adjusted price 0 (raw 100), now
    it has 150.  The first point is at distance 0 from the target and its
    adjusted price is present, yet the scan passes over it and takes the
    second one, 604800 seconds away, and the period has a result. *)
Lemma zero_priced_point_is_passed_over :
  let prices := [number 0; number 150] in
  let rawPrices := [number 100; number 150] in
  let target := endDate seoul - 7 * 86400 in
  absent (get prices 0) = false /\
  distance week_ts target 0 = 0 /\
  distance week_ts target 1 = 604800 /\
  closestIndex seoul week_ts prices (days week) = 1%nat /\
  exists r,
    periodResult seoul week_ts prices rawPrices (number 150) 1000 week
    = Normal (Some r) /\ pastPrice r = "150.00"%string.
Proof.
  intros prices rawPrices target.
  split; [reflexivity|]. split; [vm_compute; reflexivity|].
  split; [vm_compute; reflexivity|]. split; [vm_compute; reflexivity|].
  eexists; split; vm_compute; reflexivity.
Qed.

(** C4, amended. For a days entry with [n] days the baseline is read at
    the index the scan selects.  When some point has a truthy adjusted price
    (present, not 0, not NaN), that index is a point with a truthy adjusted
    price whose distance from [endDate - n * 86400] is least among such
    points, and among equally distant ones it is the first scanned, hence
    the earlier one in an ascending series.  When no adjusted price is
    truthy the period has no result. *)
Theorem nearest_truthy_point_is_chosen
  (clk : clock) (timestamps : list Z) (prices rawPrices : list value)
  (p : period_entry) (n : Z) :
  useYearAvg p = false -> days p = Some n ->
  let target := endDate clk - n * 86400 in
  let c := closestIndex clk timestamps prices (Some n) in
  baseline clk timestamps prices rawPrices p
  = Some (get prices c, get rawPrices c) /\
  ((exists i, (i < List.length timestamps)%nat /\ truthy (get prices i) = true) ->
   (c < List.length timestamps)%nat /\ truthy (get prices c) = true /\
   forall j, (j < List.length timestamps)%nat -> truthy (get prices j) = true ->
     distance timestamps target c <= distance timestamps target j /\
     (distance timestamps target j = distance timestamps target c ->
      (c <= j)%nat /\
      (ascending timestamps -> nth c timestamps 0 <= nth j timestamps 0))) /\
  ((forall i, truthy (get prices i) = false) ->
   forall (cur : value) (investmentAmount : float),
     periodResult clk timestamps prices rawPrices cur investmentAmount p
     = Normal None).
Proof.
  intros Hy Hd target c.
  assert (Hc : c = fst (scan timestamps prices target (List.length timestamps))).
  { unfold c, closestIndex, target. f_equal. f_equal. lia. }
  split; [|split].
  - rewrite (baseline_days clk timestamps prices rawPrices p Hy), Hd. reflexivity.
  - intros (i & Hi & Hq).
    destruct (scan_some timestamps prices target _ i Hi Hq) as (H1 & H2 & H3).
    rewrite <- Hc in H1, H2, H3. unfold selectable in H2, H3.
    split; [exact H1|]. split; [exact H2|].
    intros j Hj Hqj. destruct (H3 j Hj Hqj) as [H4 H5].
    split; [exact H4|]. intro He. split; [auto|].
    intro Hasc. apply Hasc. specialize (H5 He). lia.
  - intros Hnone cur inv. unfold periodResult.
    rewrite (baseline_days clk timestamps prices rawPrices p Hy).
    apply result_of_falsy, Hnone.
Qed.

Lemma nearest_truthy_point_is_chosen_witness :
  let timestamps := [1779395100; 1779395300; 1780000000] in
  let prices := [number 100; number 110; number 150] in
  let c := closestIndex seoul timestamps prices (Some 7) in
  c = 0%nat /\
  distance timestamps (endDate seoul - 7 * 86400) 1
  = distance timestamps (endDate seoul - 7 * 86400) c /\
  baseline seoul timestamps prices prices week = Some (number 100, number 100).
Proof.
  intros timestamps prices c.
  destruct (nearest_truthy_point_is_chosen seoul timestamps prices prices week 7
              eq_refl eq_refl) as (Hb & Hsome & _).
  destruct Hsome as (_ & _ & Hmin).
  { exists 1%nat. split; [simpl; lia | reflexivity]. }
  destruct (Hmin 1%nat ltac:(simpl; lia) eq_refl) as [_ Htie].
  assert (He : distance timestamps (endDate seoul - 7 * 86400) 1
               = distance timestamps (endDate seoul - 7 * 86400) c)
    by (vm_compute; reflexivity).
  destruct (Htie He) as [Hle _].
  assert (Hc : c = 0%nat) by (vm_compute; reflexivity).
  split; [exact Hc|]. split; [exact He|].
  rewrite Hb. vm_compute. reflexivity.
Defined.

(** ** C5: skipped periods *)

(** C5. A period whose adjusted baseline is zero or absent (falsy) has no
    result, so every emitted result divides by a non-zero number.  The
    list of results is, in table order, what the periods with a result
    contribute: a skipped period contributes nothing, and the list is at
    most as long as the table. *)
Theorem skipped_periods_are_omitted
  (clk : clock) (timestamps : list Z) (prices rawPrices : list value)
  (cur : value) (investmentAmount : float)
  (table : list period_entry) (rs : list period_result) :
  evaluate clk timestamps prices rawPrices cur investmentAmount table = Normal rs ->
  let callback := periodResult clk timestamps prices rawPrices cur investmentAmount in
  rs = flat_map (kept callback) table /\
  (List.length rs <= List.length table)%nat /\
  (forall p adj raw,
      baseline clk timestamps prices rawPrices p = Some (adj, raw) ->
      truthy adj = false ->
      callback p = Normal None /\ kept callback p = []) /\
  (forall p, baseline clk timestamps prices rawPrices p = None ->
             kept callback p = []) /\
  (forall r, In r rs ->
     exists p adj raw,
       In p table /\ callback p = Normal (Some r) /\
       baseline clk timestamps prices rawPrices p = Some (number adj, raw) /\
       is_zero adj = false /\ is_nan adj = false).
Proof.
  intros He callback.
  pose proof (evaluate_normal _ _ _ _ _ _ _ _ He) as Hrs. fold callback in Hrs.
  split; [exact Hrs|]. split; [|split; [|split]].
  - rewrite Hrs. apply flat_map_kept_length.
  - intros p adj raw Hb Hf.
    assert (Hp : callback p = Normal None).
    { unfold callback, periodResult. rewrite Hb. apply result_of_falsy, Hf. }
    split; [exact Hp|]. unfold kept. rewrite Hp. reflexivity.
  - intros p Hb. unfold kept, callback, periodResult. rewrite Hb. reflexivity.
  - intros r Hr. rewrite Hrs in Hr.
    apply in_flat_map_kept in Hr as (p & Hin & Hp).
    unfold callback, periodResult in Hp.
    destruct (baseline clk timestamps prices rawPrices p) as [[adj raw]|] eqn:Hb;
      [|discriminate].
    destruct (truthy adj) eqn:Ht.
    + destruct (truthy_number adj Ht) as [x ->].
      exists p, x, raw. split; [exact Hin|]. split.
      * unfold callback, periodResult. rewrite Hb. exact Hp.
      * split; [exact Hb|].
        simpl in Ht. rewrite negb_true_iff, orb_false_iff in Ht.
        destruct Ht; split; assumption.
    + rewrite result_of_falsy in Hp by exact Ht. discriminate.
Qed.

Lemma skipped_periods_are_omitted_witness :
  exists rs,
    periodResults seoul year_ts year_adj year_raw (number 50) 1000 = Normal rs /\
    map period rs = map label (firstn 6 PERIODS) /\
    (List.length rs <= List.length PERIODS)%nat.
Proof.
  eexists. split; [vm_compute; reflexivity|]. split; [reflexivity|].
  refine (proj1 (proj2 (skipped_periods_are_omitted seoul year_ts year_adj
                          year_raw (number 50) 1000%float PERIODS _ _))).
  vm_compute; reflexivity.
Defined.

(** ** C9: nothing invested *)

(** C9. With an investment of zero every period whose baseline resolves
    (a truthy adjusted price, a raw price that is a number) still has a
    result, and the shares it shows are zero. *)
Theorem zero_investment_gives_zero_shares
  (clk : clock) (timestamps : list Z) (prices rawPrices : list value)
  (cur : value) (investmentAmount : float)
  (p : period_entry) (adj raw : float) :
  is_zero investmentAmount = true ->
  baseline clk timestamps prices rawPrices p = Some (number adj, number raw) ->
  truthy (number adj) = true ->
  exists r,
    periodResult clk timestamps prices rawPrices cur investmentAmount p
    = Normal (Some r) /\
    shares r = "0.0000"%string.
Proof.
  intros Hz Hb Ht. unfold periodResult. rewrite Hb.
  rewrite result_of_number by exact Ht.
  eexists. split; [reflexivity|]. cbn [shares toNumber].
  rewrite toFixed_zero by (apply zero_div_truthy; assumption).
  reflexivity.
Qed.

Lemma zero_investment_gives_zero_shares_witness :
  exists r,
    periodResult seoul year_ts year_adj year_raw (number 50) 0 two_years
    = Normal (Some r) /\
    shares r = "0.0000"%string.
Proof.
  apply (zero_investment_gives_zero_shares seoul year_ts year_adj year_raw
           (number 50) 0%float two_years 20%float 21%float);
    vm_compute; reflexivity.
Defined.

(** ** C10: where the days path throws *)

(** Without a selected gap the table walk completes. *)
Lemma evaluation_completes_without_gap
  (clk : clock) (timestamps : list Z) (prices rawPrices : list value)
  (cur : value) (investmentAmount : float) :
  (forall i, truthy (get prices i) = true -> absent (get rawPrices i) = false) ->
  exists rs,
    periodResults clk timestamps prices rawPrices cur investmentAmount = Normal rs.
Proof.
  intro Hpre.
  apply (evaluate_completes clk timestamps prices rawPrices cur
           investmentAmount PERIODS).
  intros p _ e He.
  assert (Ht : exists e, periodResult clk timestamps prices rawPrices cur
                           investmentAmount p = Throw e) by eauto.
  apply periodResult_throws in Ht as (_ & Ht & Ha).
  rewrite (Hpre _ Ht) in Ha. discriminate.
Qed.


(** C10, as stated, fails in its "only under that precondition": the
    point of September 2023 has a truthy adjusted price and no raw price,
    so the precondition is violated, but no days period selects that point
    and the evaluation completes, with five results. *)
Lemma unselected_gap_does_not_throw :
  truthy (get [number 5; number 10] 0) = true /\
  absent (get [null; number 10] 0) = true /\
  exists rs,
    periodResults seoul [1693600000; 1780000000] [number 5; number 10]
                  [null; number 10] (number 10) 1000 = Normal rs /\
    List.length rs = 5%nat.
Proof.
  split; [reflexivity|]. split; [reflexivity|].
  eexists. split; vm_compute; reflexivity.
Qed.

(** C10, amended. The skip guard looks at the adjusted price of the
    selected point only, and the raw price at that index is then read
    without a check: the evaluation throws exactly when, for some days
    entry, the selected point has a truthy adjusted price and an absent raw
    price.  So it completes for every series in which each point with a
    truthy adjusted price has a raw price, and also for a series that breaks
    this at points no days entry selects. *)
Theorem evaluation_throws_exactly_on_selected_gap
  (clk : clock) (timestamps : list Z) (prices rawPrices : list value)
  (cur : value) (investmentAmount : float) :
  ((exists e,
       periodResults clk timestamps prices rawPrices cur investmentAmount = Throw e)
   <->
   (exists p,
       In p PERIODS /\ useYearAvg p = false /\
       truthy (get prices (closestIndex clk timestamps prices (days p))) = true /\
       absent (get rawPrices (closestIndex clk timestamps prices (days p))) = true))
  /\
  ((forall i, truthy (get prices i) = true -> absent (get rawPrices i) = false) ->
   exists rs,
     periodResults clk timestamps prices rawPrices cur investmentAmount = Normal rs).
Proof.
  split.
  - pose proof (evaluate_throws clk timestamps prices rawPrices cur
                  investmentAmount PERIODS) as [Hthrow Hback].
    fold (periodResults clk timestamps prices rawPrices cur investmentAmount)
      in Hthrow, Hback.
    split.
    + intro H. destruct (Hthrow H) as (p & e & Hin & Hp).
      exists p. split; [exact Hin|].
      apply (periodResult_throws clk timestamps prices rawPrices cur
               investmentAmount p).
      exists e. exact Hp.
    + intros (p & Hin & Hp). apply Hback.
      apply (periodResult_throws clk timestamps prices rawPrices cur
               investmentAmount p) in Hp as [e He].
      exists p, e. split; assumption.
  - apply evaluation_completes_without_gap.
Qed.

Lemma evaluation_throws_exactly_on_selected_gap_witness :
  (exists rs,
      periodResults seoul year_ts year_adj year_raw (number 50) 1000 = Normal rs) /\
  (exists e,
      periodResults seoul week_ts [number 100; number 150] [null; number 150]
                    (number 150) 1000 = Throw e).
Proof.
  split.
  - apply (proj2 (evaluation_throws_exactly_on_selected_gap seoul year_ts
                    year_adj year_raw (number 50) 1000%float)).
    intros i H. do 4 (destruct i as [|i]; [reflexivity|]).
    destruct i; discriminate.
  - apply (proj1 (evaluation_throws_exactly_on_selected_gap seoul week_ts
                    [number 100; number 150] [null; number 150]
                    (number 150) 1000%float)).
    exists week. split; [left; reflexivity|]. repeat split; vm_compute; reflexivity.
Defined.

(** ** C6: input-shape errors *)

Lemma submitted_guard (sym investment : string) :
  submitted sym investment ->
  (String.eqb sym "" || String.eqb investment "")%bool = false.
Proof.
  intros [H1 H2]. apply orb_false_iff.
  split; apply String.eqb_neq; assumption.
Qed.

(** C6, as stated, fails for arrays of different lengths: two timestamps,
    one adjusted price and two raw prices are evaluated without any error,
    the missing adjusted price reading as absent, and five results are
    stored. *)
Lemma mismatched_lengths_are_not_detected :
  let r := {| timestamp := Some week_ts;
              adjclose := Some [number 100];
              close := Some [number 100; number 150] |} in
  let st := fetchStockData idle seoul "aapl" "1000" 1000 (Body (Some r)) in
  option_map (@List.length Z) (timestamp r) = Some 2%nat /\
  option_map (@List.length value) (adjclose r) = Some 1%nat /\
  st_error st = ""%string /\
  option_map (fun res => List.length (periods res)) (st_results st) = Some 5%nat.
Proof. intros r st. repeat split; vm_compute; reflexivity. Qed.

(** C6, amended. Array lengths are not compared.  When the raw-price array
    is missing, or its last element is absent (which includes the empty
    array), a submitted run ends as a whole in the [catch] clause: no
    results are stored, one error message is, and loading is over. *)
Theorem missing_raw_price_aborts
  (st : state) (clk : clock) (sym investment : string)
  (investmentAmount : float) (r : chart_result) :
  submitted sym investment ->
  (close r = None \/
   exists rawPrices,
     close r = Some rawPrices /\
     absent (get rawPrices (List.length rawPrices - 1)) = true) ->
  let st' := fetchStockData st clk sym investment investmentAmount (Body (Some r)) in
  st_results st' = None /\ st_error st' <> ""%string /\ st_loading st' = false.
Proof.
  intros Hs Hraw st'. subst st'. unfold fetchStockData.
  rewrite (submitted_guard _ _ Hs). unfold normalize.
  destruct Hraw as [-> | (rawPrices & -> & Habs)].
  - apply caught_state.
  - set (prices := match adjclose r with Some a => a | None => rawPrices end).
    set (cur := get rawPrices (List.length rawPrices - 1)) in *.
    destruct (timestamp r) as [timestamps|]; [|apply caught_state].
    unfold summary.
    destruct (periodResults clk timestamps prices rawPrices cur investmentAmount)
      as [ps|e]; cbn [bind].
    + destruct cur; try discriminate; cbn [toFixed_of bind]; apply caught_state.
    + apply caught_state.
Qed.

Lemma missing_raw_price_aborts_witness :
  let r := {| timestamp := Some week_ts;
              adjclose := Some [number 100; number 150];
              close := Some [number 100; null] |} in
  let st := fetchStockData idle seoul "aapl" "1000" 1000 (Body (Some r)) in
  st_results st = None /\ st_error st <> ""%string /\ st_loading st = false.
Proof.
  intros r st.
  apply (missing_raw_price_aborts idle seoul "aapl" "1000" 1000%float r).
  - split; discriminate.
  - right. exists [number 100; null]. split; reflexivity.
Defined.

(** ** C7: no adjusted prices *)




(** * Further properties of the run *)

(** ** How a run ends *)

Lemma caught_shown (chart : list chart_point) (e : exn) :
  error_shown (caught chart e) = true /\
  results_shown (caught chart e) = false /\
  chart_shown (caught chart e) = false.
Proof.
  unfold error_shown, chart_shown, results_shown.
  destruct (caught_state chart e) as (Hr & He & _). rewrite Hr.
  apply String.eqb_neq in He. rewrite He. repeat split.
Qed.

(** The three ways out of a submitted run. *)
Lemma submitted_run_cases
  (st : state) (clk : clock) (sym investment : string)
  (investmentAmount : float) (resp : response) :
  submitted sym investment ->
  let st' := fetchStockData st clk sym investment investmentAmount resp in
  (exists e,
      st' = caught (st_chartData st) e /\
      forall r rawPrices timestamps,
        resp = Body (Some r) -> close r = Some rawPrices ->
        timestamp r = Some timestamps -> False) \/
  (exists r rawPrices timestamps e,
      resp = Body (Some r) /\ close r = Some rawPrices /\
      timestamp r = Some timestamps /\
      summary clk sym investmentAmount timestamps (prices_of r rawPrices)
              rawPrices (get rawPrices (List.length rawPrices - 1)) = Throw e /\
      st' = caught (chartPoints clk timestamps (prices_of r rawPrices)) e) \/
  (exists r rawPrices timestamps res,
      resp = Body (Some r) /\ close r = Some rawPrices /\
      timestamp r = Some timestamps /\
      summary clk sym investmentAmount timestamps (prices_of r rawPrices)
              rawPrices (get rawPrices (List.length rawPrices - 1)) = Normal res /\
      st' = {| st_results := Some res;
               st_loading := false;
               st_error := "";
               st_chartData :=
                 chartPoints clk timestamps (prices_of r rawPrices) |}).
Proof.
  intros Hs st'. subst st'. unfold fetchStockData.
  rewrite (submitted_guard _ _ Hs).
  destruct resp as [e| |[r|]];
    try (left; eexists; split; [reflexivity | intros; discriminate]).
  unfold normalize. destruct (close r) as [rawPrices|] eqn:Hc.
  - fold (prices_of r rawPrices).
    destruct (timestamp r) as [timestamps|] eqn:Ht.
    + destruct (summary clk sym investmentAmount timestamps
                  (prices_of r rawPrices) rawPrices
                  (get rawPrices (List.length rawPrices - 1)))
        as [res|e] eqn:Hsum.
      * right; right. exists r, rawPrices, timestamps, res.
        repeat split; assumption || reflexivity.
      * right; left. exists r, rawPrices, timestamps, e.
        repeat split; assumption || reflexivity.
    + left. eexists. split; [reflexivity|].
      intros r' raw' ts' [= <-] _ H. congruence.
  - left. eexists. split; [reflexivity|].
    intros r' raw' ts' [= <-] H _. congruence.
Qed.

(** X1. A submitted run always ends with loading over and with exactly
    one of two outcomes: results stored and no error, or an error message
    and no results.  So the markup shows either the error banner or the
    results section, never both and never neither. *)
Theorem submitted_run_ends_one_way
  (st : state) (clk : clock) (sym investment : string)
  (investmentAmount : float) (resp : response) :
  submitted sym investment ->
  let st' := fetchStockData st clk sym investment investmentAmount resp in
  st_loading st' = false /\
  ((st_results st' <> None /\ st_error st' = ""%string) \/
   (st_results st' = None /\ st_error st' <> ""%string)) /\
  error_shown st' = negb (results_shown st').
Proof.
  intros Hs st'.
  destruct (submitted_run_cases st clk sym investment investmentAmount resp Hs)
    as [(e & He & _)
       | [(r & raw & ts & e & _ & _ & _ & _ & He)
         | (r & raw & ts & res & _ & _ & _ & _ & He)]];
    fold st' in He; rewrite He.
  - destruct (caught_state (st_chartData st) e) as (H1 & H2 & H3).
    destruct (caught_shown (st_chartData st) e) as (H4 & H5 & _).
    rewrite H4, H5.
    split; [exact H3|]. split; [right; split; assumption | reflexivity].
  - destruct (caught_state (chartPoints clk ts (prices_of r raw)) e)
      as (H1 & H2 & H3).
    destruct (caught_shown (chartPoints clk ts (prices_of r raw)) e)
      as (H4 & H5 & _).
    rewrite H4, H5.
    split; [exact H3|]. split; [right; split; assumption | reflexivity].
  - split; [reflexivity|].
    split; [left; split; [discriminate | reflexivity] | reflexivity].
Qed.

Lemma submitted_run_ends_one_way_witness :
  error_shown (fetchStockData idle seoul "aapl" "1000" 1000 NotOk) = true /\
  results_shown
    (fetchStockData idle seoul "aapl" "1000" 1000
       (Body (Some {| timestamp := Some year_ts; adjclose := Some year_adj;
                      close := Some year_raw |}))) = true.
Proof.
  split.
  - destruct (submitted_run_ends_one_way idle seoul "aapl" "1000" 1000%float NotOk)
      as (_ & _ & H); [split; discriminate|].
    rewrite H. reflexivity.
  - vm_compute. reflexivity.
Defined.

(** X2. With the symbol or the amount left empty nothing is fetched or
    evaluated: whatever the upstream would answer, only the error message
    changes, so earlier results, chart data and the loading flag stay as
    they were and the banner appears next to them. *)
Theorem empty_form_only_sets_error
  (st : state) (clk : clock) (sym investment : string)
  (investmentAmount : float) (resp : response) :
  sym = ""%string \/ investment = ""%string ->
  let st' := fetchStockData st clk sym investment investmentAmount resp in
  st_results st' = st_results st /\
  st_chartData st' = st_chartData st /\
  st_loading st' = st_loading st /\
  error_shown st' = true /\
  results_shown st' = results_shown st /\
  chart_shown st' = chart_shown st.
Proof.
  intros H st'. subst st'. unfold fetchStockData.
  assert (Hg : (String.eqb sym "" || String.eqb investment "")%bool = true).
  { destruct H as [-> | ->]; [reflexivity|].
    rewrite String.eqb_refl. apply orb_true_r. }
  rewrite Hg. repeat split.
Qed.

Lemma empty_form_only_sets_error_witness :
  let before :=
    fetchStockData idle seoul "aapl" "1000" 1000
      (Body (Some {| timestamp := Some year_ts; adjclose := Some year_adj;
                     close := Some year_raw |})) in
  let after := fetchStockData before seoul "aapl" "" 1000 NotOk in
  st_results after = st_results before /\ error_shown after = true.
Proof.
  intros before after.
  destruct (empty_form_only_sets_error before seoul "aapl" "" 1000%float NotOk)
    as (H1 & _ & _ & H2 & _); [right; reflexivity|].
  split; assumption.
Defined.

(** ** What a run stores *)

Lemma selected_gap_spec (clk : clock) (timestamps : list Z)
  (prices rawPrices : list value) (p : period_entry) :
  selected_gap clk timestamps prices rawPrices p = true <->
  useYearAvg p = false /\
  truthy (get prices (closestIndex clk timestamps prices (days p))) = true /\
  absent (get rawPrices (closestIndex clk timestamps prices (days p))) = true.
Proof.
  unfold selected_gap. rewrite !andb_true_iff, negb_true_iff. tauto.
Qed.

(** The table walk throws exactly when some entry has a selected gap. *)
Lemma periodResults_throws (clk : clock) (timestamps : list Z)
  (prices rawPrices : list value) (cur : value) (investmentAmount : float) :
  (exists e,
      periodResults clk timestamps prices rawPrices cur investmentAmount = Throw e)
  <-> existsb (selected_gap clk timestamps prices rawPrices) PERIODS = true.
Proof.
  pose proof (evaluate_throws clk timestamps prices rawPrices cur
                investmentAmount PERIODS) as [Hthrow Hback].
  fold (periodResults clk timestamps prices rawPrices cur investmentAmount)
    in Hthrow, Hback.
  rewrite existsb_exists. split.
  - intro H. destruct (Hthrow H) as (p & e & Hin & Hp).
    exists p. split; [exact Hin|]. apply selected_gap_spec.
    apply (periodResult_throws clk timestamps prices rawPrices cur
             investmentAmount p).
    exists e. exact Hp.
  - intros (p & Hin & Hp). apply Hback. apply selected_gap_spec in Hp.
    apply (periodResult_throws clk timestamps prices rawPrices cur
             investmentAmount p) in Hp as [e He].
    exists p, e. split; assumption.
Qed.

(** [summary] completes exactly when the current price is there and no
    entry has a selected gap. *)
Lemma summary_completes (clk : clock) (sym : string) (investmentAmount : float)
  (timestamps : list Z) (prices rawPrices : list value) (cur : value) :
  (exists res,
      summary clk sym investmentAmount timestamps prices rawPrices cur
      = Normal res) <->
  absent cur = false /\
  existsb (selected_gap clk timestamps prices rawPrices) PERIODS = false.
Proof.
  pose proof (periodResults_throws clk timestamps prices rawPrices cur
                investmentAmount) as Ht.
  unfold summary.
  destruct (periodResults clk timestamps prices rawPrices cur investmentAmount)
    as [ps|e]; cbn [bind].
  - assert (Hg : existsb (selected_gap clk timestamps prices rawPrices) PERIODS
                 = false).
    { destruct (existsb _ PERIODS); [|reflexivity].
      destruct Ht as [_ Ht]. destruct (Ht eq_refl) as [e He]. discriminate. }
    destruct cur as [| |x]; cbn [toFixed_of bind absent]; split.
    + intros [res H]; discriminate.
    + intros [H _]; discriminate.
    + intros [res H]; discriminate.
    + intros [H _]; discriminate.
    + intros _. split; [reflexivity | exact Hg].
    + intros _. eauto.
  - split.
    + intros [res H]; discriminate.
    + intros [_ Hg]. destruct Ht as [Ht _]. rewrite Ht in Hg by eauto.
      discriminate.
Qed.

(** X3. A run that fails before the chart is built (the fetch or the
    parse throws, the response is not ok, there is no result, or the raw
    array or the timestamp array is missing) stores no results and leaves
    the chart data of the previous run in place.  Once both arrays are
    there, the chart sample of the new series is stored, also when the
    evaluation then throws and no results are stored. *)
Theorem chart_data_after_a_run
  (st : state) (clk : clock) (sym investment : string)
  (investmentAmount : float) (resp : response) :
  submitted sym investment ->
  let st' := fetchStockData st clk sym investment investmentAmount resp in
  match resp with
  | Body (Some r) =>
      match close r, timestamp r with
      | Some rawPrices, Some timestamps =>
          st_chartData st'
          = chartPoints clk timestamps (prices_of r rawPrices)
      | _, _ => st_chartData st' = st_chartData st /\ st_results st' = None
      end
  | _ => st_chartData st' = st_chartData st /\ st_results st' = None
  end.
Proof.
  intros Hs st'. subst st'. unfold fetchStockData.
  rewrite (submitted_guard _ _ Hs).
  destruct resp as [e| |[r|]]; try (split; reflexivity).
  unfold normalize. destruct (close r) as [rawPrices|]; [|split; reflexivity].
  fold (prices_of r rawPrices).
  destruct (timestamp r) as [timestamps|]; [|split; reflexivity].
  destruct (summary clk sym investmentAmount timestamps (prices_of r rawPrices)
              rawPrices (get rawPrices (List.length rawPrices - 1)));
    reflexivity.
Qed.

Lemma chart_data_after_a_run_witness :
  let r := {| timestamp := Some week_ts;
              adjclose := Some [number 100; number 150];
              close := Some [null; number 150] |} in
  let gone := {| timestamp := None;
                 adjclose := Some [number 100; number 150];
                 close := Some [number 100; number 150] |} in
  let st := fetchStockData idle seoul "aapl" "1000" 1000 (Body (Some r)) in
  let st' := fetchStockData st seoul "aapl" "1000" 1000 (Body (Some gone)) in
  st_results st = None /\ List.length (st_chartData st) = 2%nat /\
  st_results st' = None /\ st_chartData st' = st_chartData st.
Proof.
  intros r gone st st'. split; [vm_compute; reflexivity|]. split.
  - unfold st.
    rewrite (chart_data_after_a_run idle seoul "aapl" "1000" 1000%float
               (Body (Some r))) by (split; discriminate).
    vm_compute. reflexivity.
  - destruct (chart_data_after_a_run st seoul "aapl" "1000" 1000%float
                (Body (Some gone))) as [H1 H2]; [split; discriminate|].
    split; assumption.
Defined.

(** X4. A submitted run stores results exactly when the upstream
    delivered a result with a timestamp array and a raw-price array whose
    last element is a number, and no days entry selects a point with a
    truthy adjusted price and an absent raw price.  Nothing else decides it:
    not the lengths of the arrays, not the investment, not the year
    averages. *)
Theorem results_are_stored_exactly_when
  (st : state) (clk : clock) (sym investment : string)
  (investmentAmount : float) (resp : response) :
  submitted sym investment ->
  results_shown (fetchStockData st clk sym investment investmentAmount resp) = true
  <->
  exists r rawPrices timestamps,
    resp = Body (Some r) /\ close r = Some rawPrices /\
    timestamp r = Some timestamps /\
    absent (get rawPrices (List.length rawPrices - 1)) = false /\
    existsb (selected_gap clk timestamps (prices_of r rawPrices) rawPrices)
            PERIODS = false.
Proof.
  intros Hs.
  destruct (submitted_run_cases st clk sym investment investmentAmount resp Hs)
    as [(e & He & Hnot)
       | [(r & raw & ts & e & Hr & Hc & Ht & Hsum & He)
         | (r & raw & ts & res & Hr & Hc & Ht & Hsum & He)]];
    rewrite He.
  - destruct (caught_shown (st_chartData st) e) as (_ & H & _). rewrite H.
    split; [discriminate|].
    intros (r & raw & ts & Hr & Hc & Ht & _). destruct (Hnot r raw ts Hr Hc Ht).
  - destruct (caught_shown (chartPoints clk ts (prices_of r raw)) e)
      as (_ & H & _). rewrite H.
    split; [discriminate|].
    intros (r' & raw' & ts' & Hr' & Hc' & Ht' & Hcur & Hgap).
    rewrite Hr in Hr'. injection Hr' as <-.
    rewrite Hc in Hc'. injection Hc' as <-.
    rewrite Ht in Ht'. injection Ht' as <-.
    destruct (proj2 (summary_completes clk sym investmentAmount ts
                       (prices_of r raw) raw _) (conj Hcur Hgap)) as [res Hres].
    rewrite Hres in Hsum. discriminate.
  - split; [|reflexivity]. intros _. exists r, raw, ts.
    split; [exact Hr|]. split; [exact Hc|]. split; [exact Ht|].
    apply (summary_completes clk sym investmentAmount ts (prices_of r raw) raw).
    eauto.
Qed.

Lemma results_are_stored_exactly_when_witness :
  results_shown
    (fetchStockData idle seoul "aapl" "1000" 1000
       (Body (Some {| timestamp := Some year_ts; adjclose := Some year_adj;
                      close := Some year_raw |}))) = true /\
  results_shown
    (fetchStockData idle seoul "aapl" "1000" 1000
       (Body (Some {| timestamp := None; adjclose := Some year_adj;
                      close := Some year_raw |}))) = false.
Proof.
  split.
  - apply (results_are_stored_exactly_when idle seoul "aapl" "1000" 1000%float).
    + split; discriminate.
    + eexists. exists year_raw, year_ts. repeat split; vm_compute; reflexivity.
  - apply not_true_is_false. intro H.
    apply (results_are_stored_exactly_when idle seoul "aapl" "1000" 1000%float)
      in H as (r & raw & ts & [= <-] & _ & Ht & _); [|split; discriminate].
    discriminate.
Defined.

(** X5. What a submitted run stores: the symbol as the engine puts it in
    upper case, the investment as parsed, the period results of the series,
    and as current price the last element of the raw array rendered with
    two digits, also when adjusted prices are there. *)
Theorem stored_results_come_from_the_raw_tail
  (st : state) (clk : clock) (sym typed : string)
  (investmentAmount : float) (resp : response) (res : results) :
  submitted sym typed ->
  st_results (fetchStockData st clk sym typed investmentAmount resp)
  = Some res ->
  exists r rawPrices timestamps last,
    resp = Body (Some r) /\ close r = Some rawPrices /\
    timestamp r = Some timestamps /\
    get rawPrices (List.length rawPrices - 1) = number last /\
    currentPrice res = toFixed 2 last /\
    symbol res = toUpperCase clk sym /\
    investment res = investmentAmount /\
    periodResults clk timestamps (prices_of r rawPrices) rawPrices
                  (number last) investmentAmount
    = Normal (periods res).
Proof.
  intros Hs Hres.
  destruct (submitted_run_cases st clk sym typed investmentAmount resp Hs)
    as [(e & He & _)
       | [(r & raw & ts & e & Hr & Hc & Ht & _ & He)
         | (r & raw & ts & res' & Hr & Hc & Ht & Hsum & He)]];
    rewrite He in Hres; try discriminate.
  injection Hres as ->. unfold summary in Hsum.
  destruct (periodResults clk ts (prices_of r raw) raw
              (get raw (List.length raw - 1)) investmentAmount) as [ps|e] eqn:Hps;
    [|discriminate].
  cbn [bind] in Hsum.
  destruct (get raw (List.length raw - 1)) as [| |last] eqn:Hlast;
    try discriminate.
  cbn [toFixed_of bind] in Hsum. injection Hsum as <-.
  exists r, raw, ts, last. repeat split; assumption || reflexivity.
Qed.

Lemma stored_results_come_from_the_raw_tail_witness :
  exists res,
    st_results
      (fetchStockData idle seoul "aapl" "1000" 1000
         (Body (Some {| timestamp := Some year_ts; adjclose := Some year_adj;
                        close := Some year_raw |}))) = Some res /\
    currentPrice res = "50.00"%string /\ symbol res = "AAPL"%string.
Proof.
  assert (H : exists res,
             st_results
               (fetchStockData idle seoul "aapl" "1000" 1000
                  (Body (Some {| timestamp := Some year_ts;
                                 adjclose := Some year_adj;
                                 close := Some year_raw |}))) = Some res)
    by (eexists; vm_compute; reflexivity).
  destruct H as [res H]. exists res. split; [exact H|].
  destruct (stored_results_come_from_the_raw_tail idle seoul "aapl" "1000"
              1000%float _ res ltac:(split; discriminate) H)
    as (r & raw & ts & last & Hr & Hc & _ & Hlast & Hcur & Hsym & _).
  injection Hr as <-. injection Hc as <-.
  vm_compute in Hlast. injection Hlast as <-.
  rewrite Hcur, Hsym. split; vm_compute; reflexivity.
Defined.

(** ** Periods without a baseline *)

Lemma year_step_skips (clk : clock) (timestamps : list Z)
  (prices rawPrices : list value) (n : Z) (st : float * float * float) (i : nat) :
  qualifies clk timestamps prices rawPrices n i = false ->
  year_step timestamps prices rawPrices (yearStart clk n) (yearEnd clk n) st i = st.
Proof.
  unfold year_step, qualifies. destruct st as [[a r] c].
  intros ->. reflexivity.
Qed.

Lemma year_fold_unchanged (clk : clock) (timestamps : list Z)
  (prices rawPrices : list value) (n : Z) (l : list nat)
  (st : float * float * float) :
  (forall i, In i l -> qualifies clk timestamps prices rawPrices n i = false) ->
  fold_left (year_step timestamps prices rawPrices (yearStart clk n) (yearEnd clk n))
            l st = st.
Proof.
  revert st; induction l as [|i l IH]; intros st H; [reflexivity|].
  cbn [fold_left]. rewrite <- (IH st) at 2 by (intros j Hj; apply H; right; exact Hj).
  f_equal. apply year_step_skips, H. left; reflexivity.
Qed.

Lemma getYearAveragePrice_none (clk : clock) (timestamps : list Z)
  (prices rawPrices : list value) (n : Z) :
  (forall i, (i < List.length timestamps)%nat ->
             qualifies clk timestamps prices rawPrices n i = false) ->
  getYearAveragePrice clk timestamps prices rawPrices (Some n) = None.
Proof.
  intro H. unfold getYearAveragePrice.
  rewrite year_fold_unchanged; [reflexivity|].
  intros i Hi. apply H. apply in_seq in Hi. lia.
Qed.

Lemma evaluate_all_skipped (clk : clock) (timestamps : list Z)
  (prices rawPrices : list value) (cur : value) (investmentAmount : float)
  (table : list period_entry) :
  (forall p, In p table ->
     periodResult clk timestamps prices rawPrices cur investmentAmount p
     = Normal None) ->
  evaluate clk timestamps prices rawPrices cur investmentAmount table = Normal [].
Proof.
  intro H. unfold evaluate.
  assert (Hm : exists os,
             mapM (periodResult clk timestamps prices rawPrices cur
                     investmentAmount) table = Normal os /\ non_null os = []).
  { induction table as [|p ps IH]; cbn [mapM].
    - exists []. split; reflexivity.
    - rewrite (H p) by (left; reflexivity). cbn [bind].
      destruct IH as (os & -> & Hos); [intros q Hq; apply H; right; exact Hq|].
      exists (None :: os). split; [reflexivity | exact Hos]. }
  destruct Hm as (os & -> & Hos). cbn [bind]. rewrite Hos. reflexivity.
Qed.

(** X6. A series in which no adjusted price is truthy (an empty series,
    or one whose adjusted prices are all null or zero) is evaluated without
    throwing and gives no result for any period: the list of period results
    is empty. *)
Theorem no_truthy_price_gives_no_results
  (clk : clock) (timestamps : list Z) (prices rawPrices : list value)
  (cur : value) (investmentAmount : float) :
  (forall i, truthy (get prices i) = false) ->
  periodResults clk timestamps prices rawPrices cur investmentAmount = Normal [].
Proof.
  intro Hnone.
  apply (evaluate_all_skipped clk timestamps prices rawPrices cur
           investmentAmount PERIODS).
  intros p _. unfold periodResult, baseline.
  destruct (useYearAvg p).
  - destruct (years p) as [n|]; [|reflexivity].
    rewrite getYearAveragePrice_none; [reflexivity|].
    intros i _. unfold qualifies. rewrite (Hnone i).
    rewrite andb_false_r. reflexivity.
  - apply result_of_falsy, Hnone.
Qed.

Lemma no_truthy_price_gives_no_results_witness :
  periodResults seoul week_ts [null; number 0] [number 100; number 150]
                (number 150) 1000 = Normal [].
Proof.
  apply (no_truthy_price_gives_no_results seoul week_ts [null; number 0]
           [number 100; number 150] (number 150) 1000%float).
  intros [|[|[|i]]]; reflexivity.
Defined.

(** X7. A year entry whose year holds no counted point (no timestamp
    between the two bounds with both prices truthy), as for a series that
    starts after that year, has no average and no result; it never throws
    and does not disturb the other periods. *)
Theorem year_without_points_is_skipped
  (clk : clock) (timestamps : list Z) (prices rawPrices : list value)
  (cur : value) (investmentAmount : float) (p : period_entry) (n : Z) :
  useYearAvg p = true -> years p = Some n ->
  (forall i, (i < List.length timestamps)%nat ->
             qualifies clk timestamps prices rawPrices n i = false) ->
  getYearAveragePrice clk timestamps prices rawPrices (Some n) = None /\
  periodResult clk timestamps prices rawPrices cur investmentAmount p
  = Normal None.
Proof.
  intros Hy Hn Hq.
  pose proof (getYearAveragePrice_none clk timestamps prices rawPrices n Hq) as Hg.
  split; [exact Hg|].
  unfold periodResult, baseline. rewrite Hy, Hn, Hg. reflexivity.
Qed.

Lemma year_without_points_is_skipped_witness :
  periodResult seoul year_ts year_adj year_raw (number 50) 1000 (entry 8)
  = Normal None.
Proof.
  apply (year_without_points_is_skipped seoul year_ts year_adj year_raw
           (number 50) 1000%float (entry 8) 10 eq_refl eq_refl).
  intros i Hi. do 4 (destruct i as [|i]; [vm_compute; reflexivity|]).
  simpl in Hi. lia.
Defined.

(** ** Days entries *)

(** X8. The index a days entry selects is always an index of the
    timestamp array when that array is not empty, whatever the lookback and
    the prices; for an empty array it is 0. *)
Theorem closestIndex_is_in_range
  (clk : clock) (timestamps : list Z) (prices : list value) (d : option Z) :
  (closestIndex clk timestamps prices d <= List.length timestamps - 1)%nat.
Proof.
  destruct d as [n|]; cbn [closestIndex]; [|lia].
  pose proof (scan_invariant timestamps prices (endDate clk - n * 24 * 60 * 60)
                (List.length timestamps)) as H.
  destruct (scan timestamps prices (endDate clk - n * 24 * 60 * 60)
              (List.length timestamps)) as [c m].
  unfold scan_inv in H. cbn [fst snd] in *.
  destruct m as [m|]; [destruct H as (_ & H & _) | destruct H as (H & _)]; lia.
Qed.

(** X9. A days entry is never skipped for want of history: as soon as
    one point of the series has a truthy adjusted price, every days entry
    selects a point with a truthy adjusted price, however far from the
    target, and so either has a result or, when that point has no raw price,
    throws. *)
Theorem days_entry_is_never_skipped
  (clk : clock) (timestamps : list Z) (prices rawPrices : list value)
  (cur : value) (investmentAmount : float) (p : period_entry) (n : Z) :
  useYearAvg p = false -> days p = Some n ->
  (exists i, (i < List.length timestamps)%nat /\ truthy (get prices i) = true) ->
  let c := closestIndex clk timestamps prices (Some n) in
  truthy (get prices c) = true /\
  match get rawPrices c with
  | number raw =>
      exists r,
        periodResult clk timestamps prices rawPrices cur investmentAmount p
        = Normal (Some r) /\ pastPrice r = toFixed 2 raw
  | _ =>
      exists e,
        periodResult clk timestamps prices rawPrices cur investmentAmount p
        = Throw e
  end.
Proof.
  intros Hy Hd (i & Hi & Hq) c.
  assert (Hc : truthy (get prices c) = true).
  { unfold c, closestIndex.
    destruct (scan_some timestamps prices (endDate clk - n * 24 * 60 * 60)
                _ i Hi Hq) as (_ & H & _).
    exact H. }
  split; [exact Hc|].
  unfold periodResult.
  rewrite (baseline_days clk timestamps prices rawPrices p Hy), Hd. fold c.
  destruct (get rawPrices c) as [| |raw] eqn:Hraw.
  - apply result_of_throws. split; [exact Hc | reflexivity].
  - apply result_of_throws. split; [exact Hc | reflexivity].
  - rewrite result_of_number by exact Hc. eexists. split; reflexivity.
Qed.

Lemma days_entry_is_never_skipped_witness :
  exists r,
    periodResult seoul [1780000000] [number 150] [number 150] (number 150) 1000
                 (entry 4)
    = Normal (Some r) /\ pastPrice r = toFixed 2 150.
Proof.
  apply (days_entry_is_never_skipped seoul [1780000000] [number 150]
           [number 150] (number 150) 1000%float (entry 4) 365 eq_refl eq_refl).
  exists 0%nat. split; [simpl; lia | reflexivity].
Defined.

(** X10. In an ascending series with a point whose adjusted price is
    truthy, a longer lookback never selects a later point than a shorter
    one: the selected index does not increase with the number of days. *)
Theorem longer_lookback_selects_no_later_point
  (clk : clock) (timestamps : list Z) (prices : list value) (n1 n2 : Z) :
  ascending timestamps ->
  (exists i, (i < List.length timestamps)%nat /\ truthy (get prices i) = true) ->
  n1 <= n2 ->
  (closestIndex clk timestamps prices (Some n2)
   <= closestIndex clk timestamps prices (Some n1))%nat.
Proof.
  intros Hasc (i & Hi & Hq) Hn. cbn [closestIndex].
  set (t1 := endDate clk - n1 * 24 * 60 * 60).
  set (t2 := endDate clk - n2 * 24 * 60 * 60).
  destruct (scan_some timestamps prices t1 _ i Hi Hq) as (Hc1 & Hq1 & Hmin1).
  destruct (scan_some timestamps prices t2 _ i Hi Hq) as (Hc2 & Hq2 & Hmin2).
  set (c1 := fst (scan timestamps prices t1 (List.length timestamps))) in *.
  set (c2 := fst (scan timestamps prices t2 (List.length timestamps))) in *.
  destruct (Nat.le_gt_cases c2 c1) as [Hle|Hlt]; [exact Hle|exfalso].
  destruct (Hmin1 c2 Hc2 Hq2) as [H1 _].
  destruct (Hmin2 c1 Hc1 Hq1) as [H2 H3].
  assert (Hab : nth c1 timestamps 0 <= nth c2 timestamps 0)
    by (apply Hasc; lia).
  assert (Ht : t2 <= t1) by (unfold t1, t2; lia).
  unfold distance in H1, H2, H3.
  assert (Hneq : Z.abs (nth c1 timestamps 0 - t2)
                 <> Z.abs (nth c2 timestamps 0 - t2))
    by (intro He; specialize (H3 He); lia).
  lia.
Qed.

Lemma longer_lookback_selects_no_later_point_witness :
  (closestIndex seoul year_ts year_adj (Some 365%Z)
   <= closestIndex seoul year_ts year_adj (Some 7%Z))%nat.
Proof.
  apply (longer_lookback_selects_no_later_point seoul year_ts year_adj 7 365).
  - intros a b Hab. simpl in Hab.
    do 4 (destruct a as [|a];
          [do 4 (destruct b as [|b];
                 [first [lia | vm_compute; discriminate]|]); lia|]).
    lia.
  - exists 0%nat. split; [simpl; lia | reflexivity].
  - lia.
Defined.

(** ** Nothing invested: the rate *)

Lemma mul_of_zero (a c : float) :
  (exists s, Prim2SF a = S754_zero s) ->
  Prim2SF (a * c) = S754_nan \/ exists s, Prim2SF (a * c) = S754_zero s.
Proof.
  intros [s Ha]. rewrite mul_spec, Ha. unfold SF64mul, SFmul.
  destruct (Prim2SF c); eauto.
Qed.

Lemma sub_zero_of_zero (v a : float) :
  (Prim2SF v = S754_nan \/ exists s, Prim2SF v = S754_zero s) ->
  (exists s, Prim2SF a = S754_zero s) ->
  Prim2SF (v - a) = S754_nan \/ exists s, Prim2SF (v - a) = S754_zero s.
Proof.
  intros Hv [sa Ha]. rewrite sub_spec, Ha. unfold SF64sub, SFsub.
  destruct Hv as [-> | [sv ->]]; [left; reflexivity|].
  right. destruct sv, sa; eauto.
Qed.

Lemma div_zero_by_zero (g a : float) :
  (Prim2SF g = S754_nan \/ exists s, Prim2SF g = S754_zero s) ->
  (exists s, Prim2SF a = S754_zero s) ->
  Prim2SF (g / a) = S754_nan.
Proof.
  intros Hg [sa Ha]. rewrite div_spec, Ha. unfold SF64div, SFdiv.
  destruct Hg as [-> | [sg ->]]; reflexivity.
Qed.

Lemma mul_of_nan (q y : float) :
  Prim2SF q = S754_nan -> Prim2SF (q * y) = S754_nan.
Proof. intro Hq. rewrite mul_spec, Hq. reflexivity. Qed.

Lemma toFixed_nan (f : nat) (x : float) :
  Prim2SF x = S754_nan -> toFixed f x = "NaN"%string.
Proof. intro H. unfold toFixed. rewrite H. reflexivity. Qed.

(** X11. With an investment of zero the profit rate is 0/0: every period
    whose baseline resolves is emitted with the rate shown as NaN, whatever
    the prices are. *)
Theorem zero_investment_gives_NaN_rate
  (clk : clock) (timestamps : list Z) (prices rawPrices : list value)
  (cur : value) (investmentAmount : float)
  (p : period_entry) (adj raw : float) :
  is_zero investmentAmount = true ->
  baseline clk timestamps prices rawPrices p = Some (number adj, number raw) ->
  truthy (number adj) = true ->
  exists r,
    periodResult clk timestamps prices rawPrices cur investmentAmount p
    = Normal (Some r) /\
    profitRate r = "NaN"%string.
Proof.
  intros Hz Hb Ht. unfold periodResult. rewrite Hb.
  rewrite result_of_number by exact Ht.
  eexists. split; [reflexivity|]. cbn [profitRate toNumber].
  pose proof (zero_div_truthy investmentAmount adj Hz Ht) as Hs.
  apply is_zero_SF in Hz.
  apply toFixed_nan, mul_of_nan, div_zero_by_zero; [|exact Hz].
  apply sub_zero_of_zero; [|exact Hz].
  apply mul_of_zero, Hs.
Qed.

Lemma zero_investment_gives_NaN_rate_witness :
  exists r,
    periodResult seoul year_ts year_adj year_raw (number 50) 0 two_years
    = Normal (Some r) /\
    profitRate r = "NaN"%string.
Proof.
  apply (zero_investment_gives_NaN_rate seoul year_ts year_adj year_raw
           (number 50) 0%float two_years 20%float 21%float);
    vm_compute; reflexivity.
Defined.

(** ** The yearly windows *)

Lemma new_year_after_year_end (y1 y2 : Z) :
  y2 < y1 ->
  JSDate.days_from_civil y2 12 31 < JSDate.days_from_civil y1 1 1.
Proof.
  intro H. unfold JSDate.days_from_civil.
  change (12 <=? 2) with false. change (2 <? 12) with true.
  change (1 <=? 2) with true. change (2 <? 1) with false. cbv beta iota zeta.
  change ((153 * (12 - 3) + 2) / 5) with 275.
  change ((153 * (1 + 9) + 2) / 5) with 306.
  Z.to_euclidean_division_equations; lia.
Qed.

Lemma local_midnight_late_year (tz year monthIndex day : Z) :
  99 < year ->
  JSDate.local_midnight tz year monthIndex day
  = JSDate.days_from_civil year (monthIndex + 1) day * 86400 - tz.
Proof.
  intro H. unfold JSDate.local_midnight.
  replace (year <=? 99) with false by (symmetry; apply Z.leb_gt; exact H).
  rewrite andb_false_r. reflexivity.
Qed.

(** X12. The windows of two different year lookbacks do not overlap (for
    years after 99, which [Date] does not remap): the later lookback's
    window ends before the earlier one's begins, so no point of the series
    is counted in two yearly averages. *)
Theorem year_windows_do_not_overlap (clk : clock) (n1 n2 t : Z) :
  n1 < n2 -> 99 < targetYear clk n2 ->
  yearEnd clk n2 < yearStart clk n1 /\
  (in_year_window clk n2 t -> ~ in_year_window clk n1 t).
Proof.
  intros Hn Hy.
  assert (Hlt : yearEnd clk n2 < yearStart clk n1).
  { unfold yearEnd, yearStart.
    assert (Hy1 : targetYear clk n2 < targetYear clk n1)
      by (unfold targetYear in *; lia).
    rewrite !local_midnight_late_year by lia.
    pose proof (new_year_after_year_end _ _ Hy1) as H.
    change (11 + 1) with 12. change (0 + 1) with 1. lia. }
  split; [exact Hlt|].
  unfold in_year_window. intros [_ H2] [H1 _]. lia.
Qed.

Lemma year_windows_do_not_overlap_witness :
  yearEnd seoul 3 < yearStart seoul 2 /\
  (in_year_window seoul 3 1690000000 -> ~ in_year_window seoul 2 1690000000).
Proof.
  apply (year_windows_do_not_overlap seoul 2 3 1690000000);
    [lia | vm_compute; reflexivity].
Defined.

(** ** The chart sample *)

Lemma sampled_length {A : Type} (c : nat -> bool) (g : nat -> A) (l : list nat) :
  List.length (flat_map (fun i => if c i then [g i] else []) l)
  = List.length (filter c l).
Proof.
  induction l as [|i l IH]; [reflexivity|].
  cbn [flat_map filter]. rewrite length_app, IH.
  destruct (c i); reflexivity.
Qed.

Lemma filter_and_length (c d : nat -> bool) (l : list nat) :
  (List.length (filter (fun i => c i && d i)%bool l)
   <= List.length (filter c l))%nat.
Proof.
  induction l as [|i l IH]; [apply Nat.le_refl|].
  cbn [filter]. destruct (c i), (d i); cbn [andb List.length]; lia.
Qed.

(** Below [n] there are [ceil (n / s)] multiples of [s]. *)
Lemma multiples_below (s n : nat) :
  (1 <= s)%nat ->
  let k := List.length (filter (fun i => Nat.eqb (i mod s) 0) (seq 0 n)) in
  (n <= k * s < n + s)%nat.
Proof.
  intros Hs. induction n as [|n IH]; cbn zeta in *.
  - cbn [seq filter List.length]. lia.
  - rewrite seq_S, filter_app, length_app. cbn [filter Nat.add].
    set (k := List.length (filter (fun i => Nat.eqb (i mod s) 0) (seq 0 n))) in *.
    destruct (Nat.eqb (n mod s) 0) eqn:Hm; cbn [List.length].
    + apply Nat.eqb_eq in Hm.
      pose proof (Nat.div_mod_eq n s) as Hd. rewrite Hm in Hd.
      assert (Hk : k = (n / s)%nat).
      { assert (n / s <= k)%nat
          by (apply (Nat.mul_le_mono_pos_r _ _ s); lia).
        assert (k < n / s + 1)%nat
          by (apply (Nat.mul_lt_mono_pos_r s); lia).
        lia. }
      rewrite Hk. lia.
    + apply Nat.eqb_neq in Hm.
      assert (n <> k * s)%nat
        by (intro He; apply Hm; rewrite He; apply Nat.Div0.mod_mul).
      lia.
Qed.

Lemma sampled_points {A : Type} (c : nat -> bool) (g : nat -> A) (l : list nat) :
  flat_map (fun i => if c i then [g i] else []) l = map g (filter c l).
Proof.
  induction l as [|i l IH]; [reflexivity|].
  cbn [flat_map filter]. rewrite IH. destruct (c i); reflexivity.
Qed.

(** X13. The chart sample never has more than 199 points nor more points
    than there are timestamps, however long the series is; for a series of
    fewer than 200 timestamps the stride is 1 and the sample is exactly the
    points with a truthy price, in series order, each with its date and its
    price rendered with two digits. *)
Theorem chart_sample_is_bounded
  (clk : clock) (timestamps : list Z) (prices : list value) :
  let n := List.length timestamps in
  let point i :=
    {| date := toLocaleDateString clk (nth i timestamps 0 * 1000);
       price := toFixed 2 (toNumber (get prices i)) |} in
  (List.length (chartPoints clk timestamps prices) <= Nat.min n 199)%nat /\
  ((n < 200)%nat ->
   chartPoints clk timestamps prices
   = map point (filter (fun i => truthy (get prices i)) (seq 0 n))).
Proof.
  intros n point. unfold chartPoints. fold n.
  set (stride := Nat.max 1 (n / 100)).
  split.
  - rewrite (sampled_length
               (fun i => (Nat.eqb (i mod stride) 0 && truthy (get prices i))%bool)).
    pose proof (filter_and_length (fun i => Nat.eqb (i mod stride) 0)
                  (fun i => truthy (get prices i)) (seq 0 n)) as Hle.
    pose proof (multiples_below stride n ltac:(unfold stride; lia)) as Hk.
    cbn zeta in Hk.
    set (k := List.length (filter (fun i => Nat.eqb (i mod stride) 0) (seq 0 n)))
      in *.
    assert (Hkn : (k <= n)%nat) by nia.
    assert (Hk199 : (k <= 199)%nat).
    { pose proof (Nat.div_mod_eq n 100) as Hd.
      pose proof (Nat.mod_upper_bound n 100 ltac:(lia)) as Hr.
      destruct (Nat.le_gt_cases 100 n) as [Hbig|Hsmall].
      - assert (Hq : (1 <= n / 100)%nat)
          by (apply Nat.div_le_lower_bound; lia).
        assert (Hst : stride = (n / 100)%nat) by (unfold stride; lia).
        rewrite Hst in Hk. nia.
      - lia. }
    lia.
  - intro Hn.
    assert (Hst : stride = 1%nat).
    { unfold stride.
      assert (n / 100 <= 1)%nat
        by (apply Nat.lt_succ_r, Nat.Div0.div_lt_upper_bound; lia).
      lia. }
    rewrite Hst.
    rewrite (sampled_points
               (fun i => (Nat.eqb (i mod 1) 0 && truthy (get prices i))%bool)
               point).
    apply (f_equal (map point)).
    apply filter_ext. intro i. rewrite Nat.mod_1_r. reflexivity.
Qed.

(** ** New points and old years *)

Lemma fold_left_ext_in {A B : Type} (f g : A -> B -> A) (l : list B) (a : A) :
  (forall st i, In i l -> f st i = g st i) ->
  fold_left f l a = fold_left g l a.
Proof.
  revert a; induction l as [|i l IH]; intros a H; [reflexivity|].
  cbn [fold_left]. rewrite (H a i) by (left; reflexivity).
  apply IH. intros st j Hj. apply H. right; exact Hj.
Qed.

Lemma get_app_left (a b : list value) (i : nat) :
  (i < List.length a)%nat -> get (a ++ b) i = get a i.
Proof. intro H. unfold get. apply app_nth1. exact H. Qed.

(** X14. Points added at the end of a well-formed series (the three
    arrays of equal length) with timestamps outside a year's window do not
    change that year's average: the averages of past years stay what they
    were as newer data arrive. *)
Theorem later_points_keep_year_average
  (clk : clock) (timestamps more_ts : list Z)
  (prices more_prices rawPrices more_raw : list value) (n : Z) :
  List.length prices = List.length timestamps ->
  List.length rawPrices = List.length timestamps ->
  (forall t, In t more_ts -> ~ in_year_window clk n t) ->
  getYearAveragePrice clk (timestamps ++ more_ts) (prices ++ more_prices)
                      (rawPrices ++ more_raw) (Some n)
  = getYearAveragePrice clk timestamps prices rawPrices (Some n).
Proof.
  intros Hp Hr Hout. unfold getYearAveragePrice.
  rewrite length_app, seq_app, fold_left_app. cbn [Nat.add].
  rewrite (fold_left_ext_in
             (year_step (timestamps ++ more_ts) (prices ++ more_prices)
                        (rawPrices ++ more_raw) (yearStart clk n) (yearEnd clk n))
             (year_step timestamps prices rawPrices
                        (yearStart clk n) (yearEnd clk n))
             (seq 0 (List.length timestamps))).
  - rewrite year_fold_unchanged; [reflexivity|].
    intros i Hi. apply in_seq in Hi. unfold qualifies.
    rewrite app_nth2 by lia.
    assert (Hin : In (nth (i - List.length timestamps) more_ts 0) more_ts)
      by (apply nth_In; lia).
    apply Hout in Hin. unfold in_year_window in Hin.
    destruct (yearStart clk n <=? nth (i - List.length timestamps) more_ts 0)
      eqn:H1; [|reflexivity].
    destruct (nth (i - List.length timestamps) more_ts 0 <=? yearEnd clk n)
      eqn:H2; [|reflexivity].
    apply Z.leb_le in H1, H2. exfalso. apply Hin. split; assumption.
  - intros [[a r] c] i Hi. apply in_seq in Hi. unfold year_step.
    rewrite app_nth1 by lia.
    rewrite !get_app_left by lia. reflexivity.
Qed.

Lemma later_points_keep_year_average_witness :
  getYearAveragePrice seoul
    ([1710000000; 1720000000; 1730000000] ++ [1780000000])
    ([number 10; number 20; number 30] ++ [number 50])
    ([number 11; number 21; number 31] ++ [number 50]) (Some 2)
  = getYearAveragePrice seoul [1710000000; 1720000000; 1730000000]
      [number 10; number 20; number 30] [number 11; number 21; number 31] (Some 2).
Proof.
  apply (later_points_keep_year_average seoul
           [1710000000; 1720000000; 1730000000] [1780000000]
           [number 10; number 20; number 30] [number 50]
           [number 11; number 21; number 31] [number 50] 2 eq_refl eq_refl).
  intros t [<-|[]] [_ H]. vm_compute in H. apply H. reflexivity.
Defined.
